(** * n8n-nodes-vuetify-jsonforms: the form trigger's webhook handler

    A shallow embedding of [nodes/VuetifyJsonForms/utils.ts] and of the
    [VuetifyJsonFormsTrigger] class (its [webhook], [isFormConnected] and
    [generateFormHtml] members), and the properties of the request-handling
    contract proved about it. The sources hold two revisions of the class;
    the embedding follows the one with the event schema and the
    wait-for-form detection.

    Modelling conventions:
    - JavaScript values are the inductive [JsVal]; numbers are binary64
      floats (the kernel's primitive floats), objects are association lists
      in insertion order, and a string is a sequence of bytes.
    - the host ([IWebhookFunctions]) is the read-only record [Context];
      node parameters, request headers and the credential store are finite
      maps keyed by name. Credential fields are strings or undefined.
    - effects are explicit: a computation yields the trace of the effectful
      calls it made (credential look-ups, workflow-graph queries, parsing
      and validation, writes to the HTTP response) together with a returned
      value or a thrown exception.
    - third-party packages (isbot, basic-auth, jsonwebtoken, ajv, luxon),
      the constants of n8n-workflow, [sanitizeCustomCss] (imported from
      [./utils] but absent from the sources at hand) and the JavaScript
      runtime's JSON and string conversions are fields of the record
      [Libs]; every theorem holds for all of them.
    - the file has three parts: the embedding, the vocabulary of the
      contract with example requests, and the proofs. *)

From Stdlib Require Import PrimFloat ZArith Ascii String.
From stdpp Require Import gmap strings list pretty.

Set Warnings "-inexact-float,-register-all".
Local Open Scope Z_scope.

(** ** JavaScript values *)

Inductive JsVal : Type :=
| JUndefined
| JNull
| JBool (b : bool)
| JNum (x : float)
| JStr (s : string)
| JArr (items : list JsVal)
| JObj (fields : list (string * JsVal)).

(** [!!v]: ToBoolean. *)
Definition truthy (v : JsVal) : bool :=
  match v with
  | JUndefined | JNull => false
  | JBool b => b
  | JNum x => negb (PrimFloat.eqb x 0%float || PrimFloat.is_nan x)
  | JStr s => negb (String.eqb s "")
  | JArr _ | JObj _ => true
  end.

(** [v === "lit"] against a string literal. *)
Definition is_str (v : JsVal) (lit : string) : bool :=
  match v with
  | JStr s => String.eqb s lit
  | _ => false
  end.

(** [v === undefined]. *)
Definition is_undefined (v : JsVal) : bool :=
  match v with
  | JUndefined => true
  | _ => false
  end.

(** [v === undefined || v === null] (the guard of [?.]). *)
Definition is_nullish (v : JsVal) : bool :=
  match v with
  | JUndefined | JNull => true
  | _ => false
  end.

(** Own property [k] of an object literal; [undefined] when absent. *)
Fixpoint lookup_field (k : string) (fs : list (string * JsVal)) : JsVal :=
  match fs with
  | [] => JUndefined
  | (k', v) :: rest => if String.eqb k k' then v else lookup_field k rest
  end.

(** ** Exceptions and the effect trace *)

Inductive Exn : Type :=
| WebhookAuthorizationError (responseCode : Z) (message : option string)
| NodeOperationError (message description : string)
| RuntimeError (what : string).

Inductive Event : Type :=
| EvGetCredentials (name : string)
| EvGetChildNodes
| EvJsonParse (text : string)
| EvAjvCompile (schema : JsVal)
| EvAjvValidate (data : JsVal)
| EvSetHeader (name value : string)
| EvStatus (code : Z)
| EvSend (body : option string)
| EvWriteHead (code : Z) (headers : list (string * string))
| EvEnd (body : string).

Inductive Outcome (A : Type) : Type :=
| Returns (a : A)
| Throws (e : Exn).
Arguments Returns {A} a.
Arguments Throws {A} e.

(** A computation: the calls it made, in order, and how it finished. *)
Definition M (A : Type) : Type := list Event * Outcome A.

Definition ret {A} (a : A) : M A := ([], Returns a).
Definition throw {A} (e : Exn) : M A := ([], Throws e).
Definition emit (ev : Event) : M unit := ([ev], Returns tt).

Definition bind {A B} (m : M A) (k : A → M B) : M B :=
  match m with
  | (t, Returns a) => let '(t', r) := k a in (t ++ t', r)
  | (t, Throws e) => (t, Throws e)
  end.

(** [try { m } catch (error) { h error }]. *)
Definition try_catch {A} (m : M A) (h : Exn → M A) : M A :=
  match m with
  | (t, Throws e) => let '(t', r) := h e in (t ++ t', r)
  | (t, Returns a) => (t, Returns a)
  end.

Notation "'let*' x ':=' m 'in' k" := (bind m (fun x => k))
  (at level 10, x pattern, m at level 100, k at level 200, only parsing).

Definition trace {A} (m : M A) : list Event := fst m.
Definition outcome {A} (m : M A) : Outcome A := snd m.

(** [v.k]: reading a property of [undefined] or [null] is a TypeError;
    primitives and arrays have none of the properties the handler reads. *)
Definition get_prop (v : JsVal) (k : string) : M JsVal :=
  match v with
  | JUndefined | JNull =>
      throw (RuntimeError ("TypeError: Cannot read properties of undefined or null, reading " +:+ k))
  | JObj fs => ret (lookup_field k fs)
  | _ => ret JUndefined
  end.

(** ** The host: request, workflow graph, credentials *)

Record Request : Type := {
  method : string;
  headers : gmap string string;          (* names in lower case, as Node delivers them *)
  body : string;                         (* the raw body handed to JSON.parse *)
  query : option (list (string * JsVal)) (* req.query; None when undefined *)
}.

Record NodeTypeAndVersion : Type := {
  nt_name : string;
  nt_type : string;
  nt_typeVersion : float;
  nt_parameters : JsVal                  (* JUndefined unless includeNodeParameters *)
}.

Record INode : Type := {
  name : string;
  typeVersion : float
}.

Record Context : Type := {
  nodeParameters : gmap string JsVal;
  credentials : gmap string (gmap string string);
  node : INode;
  childNodes : list NodeTypeAndVersion;
  request : Request;
  timezone : string;
  mode : string;
  now : Z                                (* the instant DateTime.now() reads, epoch ms *)
}.

(** [context.getNodeParameter(name, fallback)]: the fallback when the value
    is not set; without one the host raises. *)
Definition getNodeParameter (ctx : Context) (name : string) (fallback : option JsVal) : M JsVal :=
  match nodeParameters ctx !! name with
  | Some v => ret v
  | None =>
      match fallback with
      | Some d => ret d
      | None => throw (RuntimeError ("Could not get parameter " +:+ name))
      end
  end.

(** [try { expectedAuth = await ctx.getCredentials(name) } catch {}]:
    [None] stands for [undefined], left when the look-up throws. *)
Definition getCredentials (ctx : Context) (name : string) : M (option (gmap string string)) :=
  let* _ := emit (EvGetCredentials name) in ret (credentials ctx !! name).

Definition getChildNodes (ctx : Context) : M (list NodeTypeAndVersion) :=
  let* _ := emit EvGetChildNodes in ret (childNodes ctx).

(** [!cred.field] for a credential field that is a string or undefined. *)
Definition falsy_field (f : option string) : bool :=
  match f with
  | None => true
  | Some s => String.eqb s ""
  end.

(** ** Third-party packages and runtime conversions *)

(** What a compiled ajv validator reports for one candidate. The instance
    is created with [useDefaults: true], so the call may write the schema's
    defaults into the object it is given: [av_data] is that object once the
    call has returned. *)
Record AjvResult : Type := {
  av_valid : bool;
  av_errors : JsVal;
  av_data : JsVal
}.

Record Libs : Type := {
  isbot : option string → bool;
  basicAuth : Request → option (string * string);
  jwt_verify : string → option string → option string → string + JsVal;
  JSON_parse : string → option JsVal;
  JSON_stringify : JsVal → string;
  ToString : JsVal → string;
  ajv_compile : JsVal → option (JsVal → AjvResult);
  toISO : string → Z → JsVal;           (* DateTime at an instant, setZone(zone).toISO() *)
  sanitizeCustomCss : JsVal → JsVal;
  FORM_NODE_TYPE : string;              (* constants exported by n8n-workflow *)
  WAIT_NODE_TYPE : string
}.

(** [`${v}`] and [v as string] where a string is required. *)
Definition to_str (L : Libs) (v : JsVal) : string :=
  match v with
  | JStr s => s
  | _ => ToString L v
  end.

(** ** String helpers (String.prototype methods used by utils.ts) *)

Definition LF : ascii := "010"%char.

(** [\s] over the ASCII range. *)
Definition is_ws (c : ascii) : bool :=
  let n := nat_of_ascii c in
  (Nat.eqb n 32 || (Nat.leb 9 n && Nat.leb n 13))%bool.

Fixpoint starts_with (p s : string) : bool :=
  match p, s with
  | EmptyString, _ => true
  | String a p', String b s' => Ascii.eqb a b && starts_with p' s'
  | String _ _, EmptyString => false
  end.

(** [/lit/.test(s)] for a literal pattern. *)
Fixpoint contains (lit s : string) : bool :=
  starts_with lit s ||
  match s with
  | EmptyString => false
  | String _ s' => contains lit s'
  end.

(** [s.split(sep)] for a non-empty separator: [skip] counts the separator
    characters still to be consumed, [cur] is the piece being collected. *)
Fixpoint split_go (sep : string) (skip : nat) (cur : string) (s : string) : list string :=
  match s with
  | EmptyString => [cur]
  | String c s' =>
      match skip with
      | S k => split_go sep k cur s'
      | O =>
          if starts_with sep s
          then cur :: split_go sep (String.length sep - 1) EmptyString s'
          else split_go sep O (cur +:+ String c EmptyString) s'
      end
  end.

Definition split (sep s : string) : list string := split_go sep O EmptyString s.

(** [s.replace(/\\n/g, "\n")]: a backslash followed by [n] becomes a line feed. *)
Fixpoint replace_escaped_newlines (s : string) : string :=
  match s with
  | EmptyString => EmptyString
  | String c s' =>
      match s' with
      | String d s'' =>
          if Ascii.eqb c "\"%char && Ascii.eqb d "n"%char
          then String LF (replace_escaped_newlines s'')
          else String c (replace_escaped_newlines s')
      | EmptyString => String c EmptyString
      end
  end.

(** [s.replace(/\s+/g, "\n")]. *)
Fixpoint replace_ws_runs (in_run : bool) (s : string) : string :=
  match s with
  | EmptyString => EmptyString
  | String c s' =>
      if is_ws c
      then (if in_run then replace_ws_runs true s' else String LF (replace_ws_runs true s'))
      else String c (replace_ws_runs false s')
  end.

(** [s.replace(/:\s+/g, ":")]. *)
Fixpoint replace_colon_ws (after_colon : bool) (s : string) : string :=
  match s with
  | EmptyString => EmptyString
  | String c s' =>
      if after_colon && is_ws c
      then replace_colon_ws true s'
      else String c (replace_colon_ws (Ascii.eqb c ":"%char) s')
  end.

Definition lower_ascii (c : ascii) : ascii :=
  let n := nat_of_ascii c in
  if (Nat.leb 65 n && Nat.leb n 90)%bool then ascii_of_nat (n + 32) else c.

(** [s.toLowerCase()] over the ASCII range. *)
Fixpoint toLowerCase (s : string) : string :=
  match s with
  | EmptyString => EmptyString
  | String c s' => String (lower_ascii c) (toLowerCase s')
  end.

Definition dq : string := String "034"%char EmptyString.

(** ** utils.ts *)

(** One iteration of the [parts.forEach] loop of [formatPrivateKey]: the
    text appended to [formattedPrivateKey] for [part]. *)
Definition formatPart (keyIsPublic : bool) (part : string) : string :=
  let regex_test :=
    if keyIsPublic then contains "PUBLIC KEY" part
    else contains "PRIVATE KEY" part || contains "CERTIFICATE" part in
  if regex_test then "-----" +:+ part +:+ "-----"
  else if contains "Proc-Type" part || contains "DEK-Info" part
  then replace_ws_runs false (replace_escaped_newlines (replace_colon_ws false part))
  else replace_ws_runs false (replace_escaped_newlines part).

(** [formatPrivateKey(privateKey, keyIsPublic)]; [None] is an undefined key. *)
Definition formatPrivateKey (privateKey : option string) (keyIsPublic : bool) : option string :=
  match privateKey with
  | None => None
  | Some key =>
      if String.eqb key "" || contains (String LF EmptyString) key then Some key
      else
        let parts := List.filter (fun item => negb (String.eqb item "")) (split "-----" key) in
        Some (fold_left (fun formatted part => formatted +:+ formatPart keyIsPublic part)
                        parts EmptyString)
  end.

Definition RESPOND_TO_WEBHOOK_NODE_TYPE : string := "n8n-nodes-base.respondToWebhook".

(** [validateResponseModeConfiguration(context)]. *)
Definition validateResponseModeConfiguration (ctx : Context) : M unit :=
  let* responseMode := getNodeParameter ctx "responseMode" (Some (JStr "onReceived")) in
  let* connectedNodes := getChildNodes ctx in
  let nodeVersion := typeVersion (node ctx) in
  let isRespondToWebhookConnected :=
    existsb (fun n => String.eqb (nt_type n) RESPOND_TO_WEBHOOK_NODE_TYPE) connectedNodes in
  if negb isRespondToWebhookConnected && is_str responseMode "responseNode" then
    throw (NodeOperationError
      "No Respond to Webhook node found in the workflow"
      "Insert a Respond to Webhook node to your workflow to respond to the form submission or choose another option for the “Respond When” parameter")
  else if isRespondToWebhookConnected && negb (is_str responseMode "responseNode")
          && (nodeVersion <=? 2.1)%float then
    throw (NodeOperationError
      (name (node ctx) +:+ " node not correctly configured")
      "Set the “Respond When” parameter to “Using Respond to Webhook Node” or remove the Respond to Webhook node")
  else if isRespondToWebhookConnected && (2.1 <? nodeVersion)%float then
    throw (NodeOperationError
      ("The " +:+ dq +:+ "Respond to Webhook" +:+ dq
         +:+ " node is not supported in workflows initiated by the "
         +:+ dq +:+ "n8n Form Trigger" +:+ dq)
      ("To configure your response, add an " +:+ dq +:+ "n8n Form" +:+ dq
         +:+ " node and set the " +:+ dq +:+ "Page Type" +:+ dq +:+ " to "
         +:+ dq +:+ "Form Ending" +:+ dq))
  else ret tt.

Definition NO_AUTH_DATA : option string := Some "No authentication data defined on node!".

(** [expectedAuth?.field]. *)
Definition cred_field (expectedAuth : option (gmap string string)) (field : string)
  : option string :=
  expectedAuth ≫= (.!! field).

(** [validateWebhookAuthentication(ctx, authPropertyName)]: returns
    [undefined], or the verified payload under [jwtAuth]. *)
Definition validateWebhookAuthentication (L : Libs) (ctx : Context) (authPropertyName : string)
  : M JsVal :=
  let* authentication := getNodeParameter ctx authPropertyName None in
  if is_str authentication "none" then ret JUndefined else
  let req := request ctx in
  let headers := headers (request ctx) in
  if is_str authentication "basicAuth" then
    let* expectedAuth := getCredentials ctx "httpBasicAuth" in
    if bool_decide (expectedAuth = None)
       || falsy_field (cred_field expectedAuth "user")
       || falsy_field (cred_field expectedAuth "password")
    then throw (WebhookAuthorizationError 500 NO_AUTH_DATA)
    else
      match basicAuth L req with
      | None => throw (WebhookAuthorizationError 401 None)
      | Some (provided_name, provided_pass) =>
          if negb (bool_decide (Some provided_name = cred_field expectedAuth "user"))
             || negb (bool_decide (Some provided_pass = cred_field expectedAuth "password"))
          then throw (WebhookAuthorizationError 403 None)
          else ret JUndefined
      end
  else if is_str authentication "bearerAuth" then
    let* expectedAuth := getCredentials ctx "httpBearerAuth" in
    let expectedToken := cred_field expectedAuth "token" in
    if falsy_field expectedToken
    then throw (WebhookAuthorizationError 500 NO_AUTH_DATA)
    else if negb (bool_decide (headers !! "authorization"
                               = Some ("Bearer " +:+ default "" expectedToken)))
    then throw (WebhookAuthorizationError 403 None)
    else ret JUndefined
  else if is_str authentication "headerAuth" then
    let* expectedAuth := getCredentials ctx "httpHeaderAuth" in
    if bool_decide (expectedAuth = None)
       || falsy_field (cred_field expectedAuth "name")
       || falsy_field (cred_field expectedAuth "value")
    then throw (WebhookAuthorizationError 500 NO_AUTH_DATA)
    else
      let headerName := toLowerCase (default "" (cred_field expectedAuth "name")) in
      let expectedValue := cred_field expectedAuth "value" in
      if negb (bool_decide (is_Some (headers !! headerName)))
         || negb (bool_decide (headers !! headerName = expectedValue))
      then throw (WebhookAuthorizationError 403 None)
      else ret JUndefined
  else if is_str authentication "jwtAuth" then
    let* expectedAuth := getCredentials ctx "jwtAuth" in
    if bool_decide (expectedAuth = None)
    then throw (WebhookAuthorizationError 500 NO_AUTH_DATA)
    else
      let authHeader := headers !! "authorization" in
      let token := authHeader ≫= (fun h => split " " h !! 1%nat) in
      if falsy_field token
      then throw (WebhookAuthorizationError 401 (Some "No token provided"))
      else
        let secretOrPublicKey :=
          if bool_decide (cred_field expectedAuth "keyType" = Some "passphrase")
          then cred_field expectedAuth "secret"
          else formatPrivateKey (cred_field expectedAuth "publicKey") true in
        match jwt_verify L (default "" token) secretOrPublicKey
                         (cred_field expectedAuth "algorithm") with
        | inr payload => ret payload
        | inl error_message => throw (WebhookAuthorizationError 403 (Some error_message))
        end
  else ret JUndefined.

Definition FORM_TRIGGER_AUTHENTICATION_PROPERTY : string := "authentication".

(** ** The static text of the page template

    The template literal of [generateFormHtml] is cut at its interpolations;
    each run of literal text between two of them is one constant below, with
    the escapes of the literal resolved. A double quote in the text is
    written [dq]. *)

(** The document head up to the custom style sheet (template lines 581-675). *)
Definition tpl_head : string := String.concat dq [
"
<!DOCTYPE html>
<html>
	<head>
		<meta charset='UTF-8' />
		<meta name='viewport' content='width=device-width, initial-scale=1.0' />
		<link href=";
"https://fonts.googleapis.com/css2?family=Open+Sans:ital,wght@0,300..800;1,300..800&display=swap";
" rel=";
"stylesheet";
">

    <style>
    :root {
				/* Fonts */
				--font-family: ";
"Open Sans";
", sans-serif;
				--font-size-body: 12px;

				/* Colors */
				--color-background: #fbfcfe;
				--color-card-bg: #ffffff;
				--color-card-border: #dbdfe7;
				--color-card-shadow: rgba(99, 77, 255, 0.06);
				--color-input-border: #dbdfe7;

				/* Border Radii */
				--border-radius-card: 8px;

				/* Spacing */
				--padding-container-top: 24px;
				--padding-card: 24px;
				--margin-bottom-card: 16px;

 				/* Dimensions */
				--container-width: 448px;

				/* Others */
				--box-shadow-card: 0px 4px 16px 0px var(--color-card-shadow);
			}

 			*,
			::after,
			::before {
				box-sizing: border-box;
				margin: 0;
				padding: 0;
			}

      body {
				font-family: var(--font-family);
				font-weight: 400;
				font-size: var(--font-size-body);
				display: flex;
				flex-direction: column;
				justify-content: start;
				background-color: var(--color-background);
			}

      .container {
				margin: auto;
				text-align: center;
				padding-top: var(--padding-container-top);
				width: var(--container-width);
			}


 			.card {
				padding: var(--padding-card);
				background-color: var(--color-card-bg);
				border: 1px solid var(--color-card-border);
				border-radius: var(--border-radius-card);
				box-shadow: var(--box-shadow-card);
				margin-bottom: var(--margin-bottom-card);
			}

      @media only screen and (max-width: 500px) {
				body {
					background-color: var(--color-background);
				}
        .container {
					width: 95%;
					min-height: 100vh;
					padding: 24px;
					border: 0px solid var(--color-input-border);
					border-radius: 0px;
					box-shadow: 0px 0px 0px 0px #ffffff;
				}
				.card {
					padding: 0px;
					background-color: var(--color-card-bg);
					border: 0px solid var(--color-input-border);
					border-radius: 0px;
					box-shadow: 0px 0px 0px 0px #ffffff;
					margin-bottom: 0px;
				}
			}

    </style>

    "
].

(** From the end of the head to the submitted-form header (lines 677-686). *)
Definition tpl_body_open : string := String.concat dq [
"
  </head>
  <body>
		<div class='container'>
      <div class='card' id='n8n-form'>
        <vuetify-json-forms id=";
"vuetify-json-forms";
"></vuetify-json-forms>
      </div>

      <div class='card' id='submitted-form' style='display: none;'>
        <div class='form-header'>
          <h1 id='submitted-header'>Form Submitted</h1>
          "
].

(** Closes the submitted-form card (lines 694-695). *)
Definition tpl_card_close : string := String.concat dq [
"
        </div>
      </div>
      "
].

(** Opens the hidden useResponseData input (line 697). *)
Definition tpl_use_response_data : string := String.concat dq [
"
      <input id=";
"useResponseData";
" style=";
"display: none;";
" value="
].

(** The inline script up to the form attributes (lines 697-860). *)
Definition tpl_script : string := String.concat dq [
" />
    </div>

    <script type=";
"text/javascript";
">

			const n8nForm = document.querySelector('#n8n-form');

    	let interval = 1000;
			let timeoutId;
			let formWaitingUrl;

			const checkExecutionStatus = async () => {
				if (!interval) return;

				try {
					const response = await fetch(`${formWaitingUrl ?? window.location.href}/n8n-execution-status`);
					const text = (await response.text()).trim();

					if (text === ";
"form-waiting";
") {
						window.location.replace(formWaitingUrl ?? window.location.href);
						return;
					}

					if (text === ";
"success";
") {
						n8nForm.style.display = 'none';
						document.querySelector('#submitted-form').style.display = 'block';
						clearTimeout(timeoutId);
						return;
					}

					if (text === ";
"null";
") {
						n8nForm.style.display = 'none';
						document.querySelector('#submitted-form').style.display = 'block';
						document.querySelector('#submitted-header').textContent = 'Could not get execution status';
						document.querySelector('#submitted-content').textContent =
							'Make sure ";
"Save successful production executions";
" is enabled in your workflow settings';
						clearTimeout(timeoutId);
						return;
					}

					if([";
"canceled";
", ";
"crashed";
", ";
"error";
" ].includes(text)) {
						n8nForm.style.display = 'none';
						document.querySelector('#submitted-form').style.display = 'block';
						document.querySelector('#submitted-header').textContent = 'Problem submitting response';
						document.querySelector('#submitted-content').textContent =
							'Please try again or contact support if the problem persists';
						clearTimeout(timeoutId);
						return;
					}

					interval = Math.round(interval * 1.1);
					timeoutId = setTimeout(checkExecutionStatus, interval);
				} catch (error) {
					console.error(";
"Error fetching data:";
", error);
				}
			};


      const onChange = (customEvent) => {
        let [event] = customEvent.detail;

        if (event.errors && event.errors.length > 0) {
          // just dump the errors in the JS console if there are errors
          console.log(";
"Form state errors:";
", JSON.stringify(event.errors));
        }
      };

      const submit = async (event) => {
        const data = event.context.data;

        if (event.context.errors && event.context.errors.length > 0) {
          alert('Fix Errors');
        } else {
          try {
            event.context.readonly = true;

            let postUrl = '';
            if (!window.location.href.includes('form-waiting')) {
              postUrl = window.location.search;
            }

            const response = await fetch(postUrl, { method: 'POST', body: JSON.stringify( { data: data, event: event.params } ) });
            const useResponseData = document.getElementById(";
"useResponseData";
").value;

            if (useResponseData === ";
"true";
") {
              const text = await response.text();
              let json;

              try{
                json = JSON.parse(text);
              } catch (e) {}

              if(json?.formWaitingUrl) {
                formWaitingUrl = json.formWaitingUrl;
                clearTimeout(timeoutId);
                timeoutId = setTimeout(checkExecutionStatus, interval);
                return;
              }

              if (json?.redirectURL) {
                const url = json.redirectURL.includes(";
"://";
") ? json.redirectURL : ";
"https://";
" + json.redirectURL;
                window.location.replace(url);
                return;
              }

              if (json?.formSubmittedText) {
                n8nForm.style.display = 'none';
                document.querySelector('#submitted-form').style.display = 'block';
                document.querySelector('#submitted-content').textContent = json.formSubmittedText;
                return;
              }

              if (text) {
                document.body.innerHTML = text;
                return;
              }

              if (text === '') {
                // this is empty cleanup response from responsePromise
                // no need to keep checking execution status
                clearTimeout(timeoutId);
                interval = 0;
              }
            }

            if (response.status === 200) {
              if(response.redirected) {
                window.location.replace(response.url);
                return;
              }
              const redirectUrl = document.getElementById(";
"redirectUrl";
");
              if (redirectUrl) {
                window.location.replace(redirectUrl.href);
              } else {
                n8nForm.style.display = 'none';
                document.querySelector('#submitted-form').style.display = 'block';
              }
            } else {
              n8nForm.style.display = 'none';
              document.querySelector('#submitted-form').style.display = 'block';
              document.querySelector('#submitted-header').textContent = 'Problem submitting response';
              document.querySelector('#submitted-content').textContent =
                'Please try again or contact support if the problem persists';
            }

          } finally {
            event.context.readonly = false;

            if (window.location.href.includes('form-waiting')) {
								clearTimeout(timeoutId);
								timeoutId = setTimeout(checkExecutionStatus, interval);
						}
          }
        }
      };

      const onHandleAction = (customEvent) => {
        let [event] = customEvent.detail;
        if (event.action === 'n8n:submit') {
          event.callback = submit;
        }
      };

      var form = document.getElementById(";
"vuetify-json-forms";
");
      "
].

(** The line break between two attribute slots. *)
Definition tpl_sep : string := String.concat dq [
"
      "
].

(** The blank line after the config slot (lines 864-866). *)
Definition tpl_sep_blank : string := String.concat dq [
"
      
      "
].

(** The event listeners and the module script (lines 870-880). *)
Definition tpl_tail : string := String.concat dq [
"

      form.addEventListener(";
"change";
", onChange);
      form.addEventListener(";
"handle-action";
", onHandleAction);
    </script>

    <script
      type=";
"module";
"
      src=";
"https://cdn.jsdelivr.net/npm/@chobantonov/jsonforms-vuetify-webcomponent@3.6.0/dist/vuetify-json-forms.min.js";
"
    ></script>
  </body>
</html>"
].

(** ** VuetifyJsonFormsTrigger *)

Record INodeExecutionData : Type := {
  json : list (string * JsVal)
}.

Inductive IWebhookResponseData : Type :=
| NoWebhookResponse
| WebhookResponse (status : Z) (workflowData : list (list INodeExecutionData)).

(** [n.parameters?.resume] and the like: no TypeError on a nullish receiver. *)
Definition get_opt (v : JsVal) (k : string) : JsVal :=
  match v with
  | JObj fs => lookup_field k fs
  | _ => JUndefined
  end.

(** [VuetifyJsonFormsTrigger.isFormConnected(nodes)]. *)
Definition isFormConnected (L : Libs) (nodes : list NodeTypeAndVersion) : bool :=
  existsb (fun n =>
    String.eqb (nt_type n) (FORM_NODE_TYPE L)
    || (String.eqb (nt_type n) (WAIT_NODE_TYPE L)
        && is_str (get_opt (nt_parameters n) "resume") "form")) nodes.

(** [s.replace(/\//g, "\\/")]: every slash gets a backslash in front. *)
Fixpoint escape_slashes (s : string) : string :=
  match s with
  | EmptyString => EmptyString
  | String c s' =>
      if Ascii.eqb c "/"%char
      then String "\"%char (String "/"%char (escape_slashes s'))
      else String c (escape_slashes s')
  end.

(** [JSON.stringify(v).replace(/\//g, "\\/")]; [JSON.stringify(undefined)]
    is [undefined], which has no [replace]. *)
Definition stringify_escaped (L : Libs) (v : JsVal) : M string :=
  if is_undefined v
  then throw (RuntimeError "TypeError: Cannot read properties of undefined, reading replace")
  else ret (escape_slashes (JSON_stringify L v)).

Definition DEFAULT_SUBMITTED_TEXT : string := "Your response has been recorded".

(** The local variables of [generateFormHtml] when its template literal is
    evaluated. *)
Record FormPage : Type := {
  pg_schema : JsVal;
  pg_uischema : JsVal;
  pg_data : JsVal;
  pg_config : JsVal;
  pg_responseMode : JsVal;
  pg_formSubmittedText : JsVal;
  pg_redirectUrl : JsVal;
  pg_useResponseData : bool;
  pg_dangerousCustomCss : JsVal;
  pg_options : JsVal
}.

(** [generateFormHtml], the statements before [return]. *)
Definition formPageLocals (L : Libs) (ctx : Context) : M FormPage :=
  let* schema := getNodeParameter ctx "jsonSchema" None in
  let* uischema := getNodeParameter ctx "uiSchema" None in
  let* data := getNodeParameter ctx "data" None in
  let* config := getNodeParameter ctx "config" None in
  let* responseMode := getNodeParameter ctx "responseMode" (Some (JStr "")) in
  let* options := getNodeParameter ctx "options" (Some (JObj [])) in
  let* respondWithOptions := get_prop options "respondWithOptions" in
  let* selected :=
    (if truthy respondWithOptions then
       let* values := get_prop respondWithOptions "values" in
       let* respondWith := get_prop values "respondWith" in
       let* formSubmittedText :=
         (if is_str respondWith "text" then get_prop values "formSubmittedText"
          else ret JUndefined) in
       let* respondWith := get_prop values "respondWith" in
       let* redirectUrl :=
         (if is_str respondWith "redirect" then get_prop values "redirectUrl"
          else ret JUndefined) in
       ret (formSubmittedText, redirectUrl)
     else
       let* formSubmittedText := get_prop options "formSubmittedText" in
       ret (formSubmittedText, JUndefined)) in
  let '(formSubmittedText, redirectUrl) := selected in
  let* connectedNodes := getChildNodes ctx in
  let hasNextPage := isFormConnected L connectedNodes in
  let redirectUrl := if hasNextPage then JUndefined else redirectUrl in
  let responseMode := if hasNextPage then JStr "responseNode" else responseMode in
  let formSubmittedText :=
    if is_undefined formSubmittedText then JStr DEFAULT_SUBMITTED_TEXT
    else formSubmittedText in
  let useResponseData := is_str responseMode "responseNode" in
  let* customCss := get_prop options "customCss" in
  let dangerousCustomCss := sanitizeCustomCss L customCss in
  ret {| pg_schema := schema; pg_uischema := uischema; pg_data := data;
         pg_config := config; pg_responseMode := responseMode;
         pg_formSubmittedText := formSubmittedText; pg_redirectUrl := redirectUrl;
         pg_useResponseData := useResponseData;
         pg_dangerousCustomCss := dangerousCustomCss; pg_options := options |}.

(** The interpolations of the template literal, one definition each. *)

Definition slot_customCss (L : Libs) (p : FormPage) : string :=
  if truthy (pg_dangerousCustomCss p)
  then "<style>" +:+ to_str L (pg_dangerousCustomCss p) +:+ "</style>"
  else "".

Definition slot_submittedText (L : Libs) (p : FormPage) : string :=
  if truthy (pg_formSubmittedText p)
  then "<p id='submitted-content'>
              " +:+ to_str L (pg_formSubmittedText p) +:+ "
            </p>"
  else "".

Definition slot_redirectUrl (L : Libs) (p : FormPage) : string :=
  if truthy (pg_redirectUrl p)
  then "<a id='redirectUrl' href='" +:+ to_str L (pg_redirectUrl p)
       +:+ "' style='display: none;'></a>"
  else "".

Definition slot_useResponseData (p : FormPage) : string :=
  if pg_useResponseData p then "true" else "false".

(** [v !== undefined && v !== null ? `form.setAttribute("attr",` + ... + `);` : ""]. *)
Definition slot_attribute (L : Libs) (attr : string) (v : JsVal) : M string :=
  if negb (is_nullish v) then
    let* text := stringify_escaped L v in
    ret ("form.setAttribute(" +:+ dq +:+ attr +:+ dq +:+ "," +:+ text +:+ ");")
  else ret "".

(** [guard ? `form.setAttribute('attr', ` + ... + `);` : ""]. *)
Definition slot_option (L : Libs) (attr : string) (guard v : JsVal) : M string :=
  if truthy guard then
    let* text := stringify_escaped L v in
    ret ("form.setAttribute('" +:+ attr +:+ "', " +:+ text +:+ ");")
  else ret "".

Definition slot_readonly (readonly : JsVal) : string :=
  match readonly with
  | JBool true => "form.setAttribute('readonly', '');"
  | _ => ""
  end.

(** [generateFormHtml], the template literal that is returned. *)
Definition renderFormHtml (L : Libs) (p : FormPage) : M string :=
  let* data := slot_attribute L "data" (pg_data p) in
  let* schema := slot_attribute L "schema" (pg_schema p) in
  let* uischema := slot_attribute L "uischema" (pg_uischema p) in
  let* config := slot_attribute L "config" (pg_config p) in
  let* vuetifyOptionsValue := get_prop (pg_options p) "vuetifyOptions" in
  let* vuetifyOptions :=
    slot_option L "vuetify-options" vuetifyOptionsValue vuetifyOptionsValue in
  let* customStyleValue := get_prop (pg_options p) "customStyle" in
  let* customStyle :=
    slot_option L "custom-style" customStyleValue (sanitizeCustomCss L customStyleValue) in
  let* validationModeValue := get_prop (pg_options p) "validationMode" in
  let* validationMode :=
    slot_option L "validation-mode" validationModeValue validationModeValue in
  let* readonly := get_prop (pg_options p) "readonly" in
  ret (tpl_head +:+ slot_customCss L p
       +:+ tpl_body_open +:+ slot_submittedText L p
       +:+ tpl_card_close +:+ slot_redirectUrl L p
       +:+ tpl_use_response_data +:+ slot_useResponseData p
       +:+ tpl_script +:+ data
       +:+ tpl_sep +:+ schema
       +:+ tpl_sep +:+ uischema
       +:+ tpl_sep +:+ config
       +:+ tpl_sep_blank +:+ vuetifyOptions
       +:+ tpl_sep +:+ customStyle
       +:+ tpl_sep +:+ validationMode
       +:+ tpl_sep +:+ slot_readonly readonly
       +:+ tpl_tail).

(** [VuetifyJsonFormsTrigger.generateFormHtml(context)]. *)
Definition generateFormHtml (L : Libs) (ctx : Context) : M string :=
  let* page := formPageLocals L ctx in
  renderFormHtml L page.

(** [JSON.parse(text)]; a SyntaxError when the text is not JSON. *)
Definition JSON_parse_m (L : Libs) (text : string) : M JsVal :=
  let* _ := emit (EvJsonParse text) in
  match JSON_parse L text with
  | Some v => ret v
  | None => throw (RuntimeError "SyntaxError: Unexpected token in JSON")
  end.

(** [ajv.compile(schema)]; ajv raises on a schema it cannot compile. *)
Definition ajv_compile_m (L : Libs) (schema : JsVal) : M (JsVal → AjvResult) :=
  let* _ := emit (EvAjvCompile schema) in
  match ajv_compile L schema with
  | Some validate => ret validate
  | None => throw (RuntimeError "Error: schema is invalid")
  end.

(** [validate(candidate)], with [validate.errors] and the candidate as the
    call leaves it. *)
Definition ajv_validate_m (validate : JsVal → AjvResult) (candidate : JsVal) : M AjvResult :=
  let* _ := emit (EvAjvValidate candidate) in
  ret (validate candidate).

(** [res.writeHead(400, ...); res.end(JSON.stringify({ message, errors }))]. *)
Definition respondValidationFailed (L : Libs) (message : string) (errors : JsVal)
  : M IWebhookResponseData :=
  let* _ := emit (EvWriteHead 400 [("Content-Type", "application/json")]) in
  let* _ := emit (EvEnd (JSON_stringify L
                  (JObj [("message", JStr message); ("errors", errors)]))) in
  ret NoWebhookResponse.

(** [webhook], lines 418-434: the bot filter and the authentication call
    inside [try], and the [catch] that answers the request. [Some r] is the
    early [return r]. *)
Definition authenticate (L : Libs) (ctx : Context) (options : JsVal)
  : M (option IWebhookResponseData) :=
  try_catch
    (let* ignoreBots := get_prop options "ignoreBots" in
     if truthy ignoreBots && isbot L (headers (request ctx) !! "user-agent")
     then throw (WebhookAuthorizationError 403 None)
     else
       let* _ := validateWebhookAuthentication L ctx FORM_TRIGGER_AUTHENTICATION_PROPERTY in
       ret None)
    (fun error =>
       match error with
       | WebhookAuthorizationError _ _ =>
           let* _ := emit (EvSetHeader "WWW-Authenticate"
                             ("Basic realm=" +:+ dq +:+ "Enter credentials" +:+ dq)) in
           let* _ := emit (EvStatus 401) in
           let* _ := emit (EvSend None) in
           ret (Some NoWebhookResponse)
       | _ => throw error
       end).

(** [webhook], lines 479-506: the record handed to the workflow. [data] and
    [event] are [request.data] and [request.event] at this point. *)
Definition emitSubmission (L : Libs) (ctx : Context) (options data event : JsVal)
  : M IWebhookResponseData :=
  let* useWorkflowTimezone := get_prop options "useWorkflowTimezone" in
  let useWorkflowTimezone :=
    if is_undefined useWorkflowTimezone then JBool true else useWorkflowTimezone in
  let timezone := if truthy useWorkflowTimezone then timezone ctx else "UTC" in
  let submittedAt := toISO L timezone (now ctx) in
  let mode := if String.eqb (mode ctx) "manual" then "test" else "production" in
  let returnData :=
    [ {| json :=
           [("data", data); ("event", event);
            ("submittedAt", submittedAt); ("formMode", JStr mode)]
           ++ match query (request ctx) with
              | Some q =>
                  if (0 <? length q)%nat then [("formQueryParameters", JObj q)] else []
              | None => []
              end |} ] in
  ret (WebhookResponse 200 [returnData]).

(** [webhook], lines 443-507: the POST branch. *)
Definition handleSubmission (L : Libs) (ctx : Context) (options : JsVal)
  : M IWebhookResponseData :=
  let* request := JSON_parse_m L (body (request ctx)) in
  let* schema := getNodeParameter ctx "jsonSchema" None in
  let* schemaJson := JSON_parse_m L (to_str L schema) in
  let* validateData := ajv_compile_m L schemaJson in
  let* submitted := get_prop request "data" in
  let* dataResult := ajv_validate_m validateData submitted in
  if negb (av_valid dataResult)
  then respondValidationFailed L "Data validation failed" (av_errors dataResult)
  else
    let data := av_data dataResult in
    let* eventJsonSchema := get_prop options "eventJsonSchema" in
    if truthy eventJsonSchema then
      let* eventSchemaJson := JSON_parse_m L (to_str L eventJsonSchema) in
      let* validateEvent := ajv_compile_m L eventSchemaJson in
      let* eventSubmitted := get_prop request "event" in
      let* eventResult := ajv_validate_m validateEvent eventSubmitted in
      if negb (av_valid eventResult)
      then respondValidationFailed L "Event validation failed" (av_errors eventResult)
      else emitSubmission L ctx options data (av_data eventResult)
    else
      let* event := get_prop request "event" in
      emitSubmission L ctx options data event.

(** [webhook], lines 436-510: the response-mode check and the dispatch on
    the HTTP method, reached when the request was not answered before. *)
Definition serveRequest (L : Libs) (ctx : Context) (options : JsVal)
  : M IWebhookResponseData :=
  let req := request ctx in
  let* _ := validateResponseModeConfiguration ctx in
  if String.eqb (method req) "GET" then
    let* html := generateFormHtml L ctx in
    let* _ := emit (EvStatus 200) in
    let* _ := emit (EvSend (Some html)) in
    ret NoWebhookResponse
  else if String.eqb (method req) "POST" then
    handleSubmission L ctx options
  else
    let* _ := emit (EvStatus 405) in
    let* _ := emit (EvSend (Some "Method not allowed")) in
    ret NoWebhookResponse.

(** [VuetifyJsonFormsTrigger.webhook]. *)
Definition webhook (L : Libs) (ctx : Context) : M IWebhookResponseData :=
  let* options := getNodeParameter ctx "options" (Some (JObj [])) in
  let* answered := authenticate L ctx options in
  match answered with
  | Some response => ret response
  | None => serveRequest L ctx options
  end.

(** ** Observations on a run *)

(** The HTTP status the handler wrote on the response object, if any. *)
Fixpoint http_status (t : list Event) : option Z :=
  match t with
  | [] => None
  | EvStatus code :: _ => Some code
  | EvWriteHead code _ :: _ => Some code
  | _ :: rest => http_status rest
  end.

(** The body the handler sent; [Some None] is [send()] without a body. *)
Fixpoint http_body (t : list Event) : option (option string) :=
  match t with
  | [] => None
  | EvSend b :: _ => Some b
  | EvEnd b :: _ => Some (Some b)
  | _ :: rest => http_body rest
  end.

Definition is_credential_lookup (ev : Event) : bool :=
  match ev with
  | EvGetCredentials _ => true
  | _ => false
  end.

Definition is_payload_processing (ev : Event) : bool :=
  match ev with
  | EvJsonParse _ | EvAjvCompile _ | EvAjvValidate _ => true
  | _ => false
  end.

Definition is_response_write (ev : Event) : bool :=
  match ev with
  | EvSetHeader _ _ | EvStatus _ | EvSend _ | EvWriteHead _ _ | EvEnd _ => true
  | _ => false
  end.

(** ** A concrete instance of the packages

    Small executable stand-ins for the third-party packages, enough to run
    the handler on the example requests below. They follow the packages on
    the inputs used here: a well-formed Basic header, a token checked against
    the key, schemas made of [required], [properties] and [default]. *)
Module Demo.

(** The value of a base64 digit. *)
Definition b64_value (c : ascii) : option N :=
  let n := N_of_ascii c in
  if (65 <=? n)%N && (n <=? 90)%N then Some (n - 65)%N
  else if (97 <=? n)%N && (n <=? 122)%N then Some (n - 71)%N
  else if (48 <=? n)%N && (n <=? 57)%N then Some (n + 4)%N
  else if (n =? 43)%N then Some 62%N
  else if (n =? 47)%N then Some 63%N
  else None.

(** Base64 decoding; [acc] holds [nbits] pending bits. Decoding stops at
    the padding or at a character outside the alphabet. *)
Fixpoint b64_decode (acc : N) (nbits : N) (s : string) : string :=
  match s with
  | EmptyString => EmptyString
  | String c s' =>
      match b64_value c with
      | None => EmptyString
      | Some v =>
          let acc' := (acc * 64 + v)%N in
          let nbits' := (nbits + 6)%N in
          if (8 <=? nbits')%N then
            let rest := (nbits' - 8)%N in
            String (ascii_of_N (N.shiftr acc' rest))
                   (b64_decode (N.land acc' (N.ones rest)) rest s')
          else b64_decode acc' nbits' s'
      end
  end.

(** The text before and after the first occurrence of [sep]. *)
Fixpoint cut_at (sep : ascii) (s : string) : option (string * string) :=
  match s with
  | EmptyString => None
  | String c s' =>
      if Ascii.eqb c sep then Some (EmptyString, s')
      else match cut_at sep s' with
           | Some (a, b) => Some (String c a, b)
           | None => None
           end
  end.

(** basic-auth: the credentials of an [Authorization: Basic] header. *)
Definition basic_auth (req : Request) : option (string * string) :=
  match headers req !! "authorization" with
  | Some h =>
      if starts_with "Basic " h
      then cut_at ":"%char (b64_decode 0 0 (String.substring 6 (String.length h - 6) h))
      else None
  | None => None
  end.

(** isbot: a user agent that names a crawler. *)
Definition is_bot (ua : option string) : bool :=
  match ua with
  | Some s => contains "bot" s || contains "crawler" s || contains "spider" s
  | None => false
  end.

(** jsonwebtoken: a token is the key it was signed with after a fixed
    prefix. *)
Definition verify (token : string) (key alg : option string) : string + JsVal :=
  match key with
  | Some k =>
      if String.eqb token ("signed." +:+ k)
      then inr (JObj [("sub", JStr "demo")])
      else inl "invalid signature"
  | None => inl "secret or public key must be provided"
  end.

(** Writes a JSON text given with single quotes in place of double ones. *)
Fixpoint q (s : string) : string :=
  match s with
  | EmptyString => EmptyString
  | String c s' => String (if Ascii.eqb c "'"%char then "034"%char else c) (q s')
  end.

Definition string_prop (title : string) : JsVal :=
  JObj [("type", JStr "string"); ("title", JStr title)].

(** The schemas and bodies of the examples, as texts and parsed. *)
Definition contact_schema_text : string :=
  q "{'type':'object','properties':{'name':{'type':'string','title':'Name'},'email':{'type':'string','title':'Email'},'message':{'type':'string','title':'Message'}},'required':['name','email','message']}".

Definition contact_schema : JsVal :=
  JObj [("type", JStr "object");
        ("properties", JObj [("name", string_prop "Name");
                             ("email", string_prop "Email");
                             ("message", string_prop "Message")]);
        ("required", JArr [JStr "name"; JStr "email"; JStr "message"])].

Definition default_schema_text : string :=
  q "{'type':'object','properties':{'name':{'type':'string','default':'anonymous'}},'required':['name']}".

Definition default_schema : JsVal :=
  JObj [("type", JStr "object");
        ("properties",
         JObj [("name", JObj [("type", JStr "string"); ("default", JStr "anonymous")])]);
        ("required", JArr [JStr "name"])].

Definition event_schema_text : string :=
  q "{'type':'object','properties':{'action':{'type':'string','title':'Action'}},'required':['action']}".

Definition event_schema : JsVal :=
  JObj [("type", JStr "object");
        ("properties", JObj [("action", string_prop "Action")]);
        ("required", JArr [JStr "action"])].

Definition jo : JsVal :=
  JObj [("name", JStr "Jo"); ("email", JStr "jo@x.com"); ("message", JStr "hi")].

Definition body_jo : string :=
  q "{'data':{'name':'Jo','email':'jo@x.com','message':'hi'}}".
Definition body_jo_event : string :=
  q "{'data':{'name':'Jo','email':'jo@x.com','message':'hi'},'event':{'action':'n8n:submit'}}".
Definition body_incomplete : string := q "{'data':{'name':'Jo'}}".
Definition body_empty_data : string := q "{'data':{}}".

(** JSON.parse, tabulated on the texts above; any other text is taken as
    malformed. *)
Definition parse (text : string) : option JsVal :=
  if String.eqb text contact_schema_text then Some contact_schema
  else if String.eqb text default_schema_text then Some default_schema
  else if String.eqb text event_schema_text then Some event_schema
  else if String.eqb text body_jo then Some (JObj [("data", jo)])
  else if String.eqb text body_jo_event
  then Some (JObj [("data", jo); ("event", JObj [("action", JStr "n8n:submit")])])
  else if String.eqb text body_incomplete
  then Some (JObj [("data", JObj [("name", JStr "Jo")])])
  else if String.eqb text body_empty_data then Some (JObj [("data", JObj [])])
  else None.

(** JSON.stringify without string escapes; numbers are not printed. *)
Fixpoint stringify (v : JsVal) : string :=
  match v with
  | JUndefined | JNull => "null"
  | JBool true => "true"
  | JBool false => "false"
  | JNum _ => "0"
  | JStr s => dq +:+ s +:+ dq
  | JArr items => "[" +:+ String.concat "," (List.map stringify items) +:+ "]"
  | JObj fields =>
      "{" +:+ String.concat ","
                (List.map (fun kv => match kv with
                                     | (k, x) => dq +:+ k +:+ dq +:+ ":" +:+ stringify x
                                     end) fields) +:+ "}"
  end.

Definition to_string (v : JsVal) : string :=
  match v with
  | JUndefined => "undefined"
  | JNull => "null"
  | JBool true => "true"
  | JBool false => "false"
  | JStr s => s
  | JNum _ => "0"
  | JArr _ => ""
  | JObj _ => "[object Object]"
  end.

Definition has_field (k : string) (fs : list (string * JsVal)) : bool :=
  existsb (fun kv => String.eqb (fst kv) k) fs.

(** The defaults of [props] for the properties [fs] lacks. *)
Definition missing_defaults (props fs : list (string * JsVal)) : list (string * JsVal) :=
  flat_map (fun kv =>
    match get_opt (snd kv) "default" with
    | JUndefined => []
    | d => if has_field (fst kv) fs then [] else [(fst kv, d)]
    end) props.

Definition required_error (k : JsVal) : JsVal :=
  JObj [("keyword", JStr "required"); ("params", JObj [("missingProperty", k)]);
        ("message", JStr "must have required property")].

(** ajv on an object schema: the defaults are written first, then
    [required] is checked; [validate.errors] is [null] on success. *)
Definition validate (schema candidate : JsVal) : AjvResult :=
  match candidate with
  | JObj fs =>
      let props := match get_opt schema "properties" with JObj ps => ps | _ => [] end in
      let fs' := fs ++ missing_defaults props fs in
      let required := match get_opt schema "required" with JArr ks => ks | _ => [] end in
      let missing :=
        List.filter (fun k => match k with
                              | JStr name => negb (has_field name fs')
                              | _ => false
                              end) required in
      match missing with
      | [] => {| av_valid := true; av_errors := JNull; av_data := JObj fs' |}
      | _ => {| av_valid := false;
                av_errors := JArr (List.map required_error missing);
                av_data := JObj fs' |}
      end
  | _ =>
      {| av_valid := false;
         av_errors := JArr [JObj [("keyword", JStr "type");
                                  ("message", JStr "must be object")]];
         av_data := candidate |}
  end.

(** ajv.compile: object schemas compile, anything else is refused. *)
Definition compile (schema : JsVal) : option (JsVal → AjvResult) :=
  match schema with
  | JObj _ => Some (validate schema)
  | _ => None
  end.

(** luxon: the zone and the instant, kept apart by [@]. *)
Definition to_iso (zone : string) (instant : Z) : JsVal :=
  JStr (zone +:+ "@" +:+ pretty instant).

(** sanitizeCustomCss: nothing for an empty style sheet, else the text. *)
Definition sanitize (css : JsVal) : JsVal :=
  if truthy css then css else JUndefined.

Definition libs : Libs :=
  {| isbot := is_bot;
     basicAuth := basic_auth;
     jwt_verify := verify;
     JSON_parse := parse;
     JSON_stringify := stringify;
     ToString := to_string;
     ajv_compile := compile;
     toISO := to_iso;
     sanitizeCustomCss := sanitize;
     FORM_NODE_TYPE := "n8n-nodes-base.form";
     WAIT_NODE_TYPE := "n8n-nodes-base.wait" |}.

End Demo.

(** ** Vocabulary of the contract

    The notions the statements below are phrased in, defined from the
    description of the contract and not from the handler. *)

(** The value read for a parameter that has a fallback. *)
Definition parameterOr (ctx : Context) (name : string) (fallback : JsVal) : JsVal :=
  default fallback (nodeParameters ctx !! name).

Definition optionsOf (ctx : Context) : JsVal := parameterOr ctx "options" (JObj []).

Definition respondToWebhookConnected (ctx : Context) : Prop :=
  ∃ n, In n (childNodes ctx) ∧ nt_type n = RESPOND_TO_WEBHOOK_NODE_TYPE.

(** The three misconfigurations of the response mode. *)
Inductive ResponseModeMisconfigured (ctx : Context) : Prop :=
| respond_node_missing :
    parameterOr ctx "responseMode" (JStr "onReceived") = JStr "responseNode" →
    ¬ respondToWebhookConnected ctx →
    ResponseModeMisconfigured ctx
| respond_node_not_delegated :
    respondToWebhookConnected ctx →
    parameterOr ctx "responseMode" (JStr "onReceived") ≠ JStr "responseNode" →
    (typeVersion (node ctx) <=? 2.1)%float = true →
    ResponseModeMisconfigured ctx
| respond_node_unsupported :
    respondToWebhookConnected ctx →
    (2.1 <? typeVersion (node ctx))%float = true →
    ResponseModeMisconfigured ctx.

(** *** Authentication *)

Inductive AuthMode : Type := AuthNone | BasicAuth | BearerAuth | HeaderAuth | JwtAuth.

Definition authModeName (m : AuthMode) : string :=
  match m with
  | AuthNone => "none"
  | BasicAuth => "basicAuth"
  | BearerAuth => "bearerAuth"
  | HeaderAuth => "headerAuth"
  | JwtAuth => "jwtAuth"
  end.

(** A credential field that is set: a string that is not empty. *)
Definition set_field (f : option string) : option string :=
  match f with
  | Some EmptyString => None
  | _ => f
  end.

(** The stored credential of each mode, when the node has one. *)
Definition storedBasicCredential (ctx : Context) : option (string * string) :=
  c ← credentials ctx !! "httpBasicAuth";
  user ← set_field (c !! "user");
  password ← set_field (c !! "password");
  Some (user, password).

Definition storedBearerToken (ctx : Context) : option string :=
  c ← credentials ctx !! "httpBearerAuth";
  set_field (c !! "token").

Definition storedHeader (ctx : Context) : option (string * string) :=
  c ← credentials ctx !! "httpHeaderAuth";
  header_name ← set_field (c !! "name");
  value ← set_field (c !! "value");
  Some (header_name, value).

Definition storedJwtCredential (ctx : Context) : option (gmap string string) :=
  credentials ctx !! "jwtAuth".

Definition hasStoredCredential (ctx : Context) (m : AuthMode) : bool :=
  match m with
  | AuthNone => true
  | BasicAuth => bool_decide (is_Some (storedBasicCredential ctx))
  | BearerAuth => bool_decide (is_Some (storedBearerToken ctx))
  | HeaderAuth => bool_decide (is_Some (storedHeader ctx))
  | JwtAuth => bool_decide (is_Some (storedJwtCredential ctx))
  end.

(** The bearer token of the Authorization header: its second word. *)
Definition bearerToken (req : Request) : option string :=
  h ← headers req !! "authorization";
  set_field (split " " h !! 1%nat).

(** The key a token is verified with: the shared secret, or the public key
    in PEM layout. *)
Definition jwtKey (c : gmap string string) : option string :=
  if bool_decide (c !! "keyType" = Some "passphrase") then c !! "secret"
  else formatPrivateKey (c !! "publicKey") true.

Inductive Presented : Type :=
| CredentialsMissing
| CredentialsIncorrect
| CredentialsCorrect.

(** What the request presents, judged against the stored credential. *)
Definition presentedCredentials (L : Libs) (ctx : Context) (m : AuthMode) : Presented :=
  let req := request ctx in
  match m with
  | AuthNone => CredentialsCorrect
  | BasicAuth =>
      match basicAuth L req with
      | None => CredentialsMissing
      | Some provided =>
          if bool_decide (Some provided = storedBasicCredential ctx)
          then CredentialsCorrect else CredentialsIncorrect
      end
  | BearerAuth =>
      match headers req !! "authorization" with
      | None => CredentialsMissing
      | Some h =>
          if bool_decide (Some h = (λ t, "Bearer " +:+ t) <$> storedBearerToken ctx)
          then CredentialsCorrect else CredentialsIncorrect
      end
  | HeaderAuth =>
      match storedHeader ctx with
      | None => CredentialsMissing
      | Some (header_name, value) =>
          match headers req !! toLowerCase header_name with
          | None => CredentialsMissing
          | Some v =>
              if bool_decide (v = value) then CredentialsCorrect else CredentialsIncorrect
          end
      end
  | JwtAuth =>
      match bearerToken req, storedJwtCredential ctx with
      | Some token, Some c =>
          match jwt_verify L token (jwtKey c) (c !! "algorithm") with
          | inr _ => CredentialsCorrect
          | inl _ => CredentialsIncorrect
          end
      | _, _ => CredentialsMissing
      end
  end.

Inductive Verdict : Type :=
| Accepted
| Rejected (code : Z)
| Crashed.

(** How the authentication routine finished. *)
Definition verdict {A} (o : Outcome A) : Verdict :=
  match o with
  | Returns _ => Accepted
  | Throws (WebhookAuthorizationError code _) => Rejected code
  | Throws _ => Crashed
  end.

(** The verdict each mode prescribes: 500 without a stored credential,
    else 401 for missing credentials under basicAuth and jwtAuth, 403 for
    missing ones under bearerAuth and headerAuth and for wrong ones. *)
Definition expectedVerdict (m : AuthMode) (stored : bool) (p : Presented) : Verdict :=
  if negb stored then Rejected 500
  else
    match p with
    | CredentialsCorrect => Accepted
    | CredentialsIncorrect => Rejected 403
    | CredentialsMissing =>
        match m with
        | BasicAuth | JwtAuth => Rejected 401
        | _ => Rejected 403
        end
    end.

(** The bot filter of the handler rejects the request. *)
Definition botRejected (L : Libs) (ctx : Context) : bool :=
  truthy (get_opt (optionsOf ctx) "ignoreBots")
  && isbot L (headers (request ctx) !! "user-agent").

(** The same node and workflow, serving another request. *)
Definition withRequest (ctx : Context) (req : Request) : Context :=
  {| nodeParameters := nodeParameters ctx; credentials := credentials ctx;
     node := node ctx; childNodes := childNodes ctx; request := req;
     timezone := timezone ctx; mode := mode ctx; now := now ctx |}.

(** What the [catch] block writes on the response. *)
Definition challenge : list Event :=
  [EvSetHeader "WWW-Authenticate" ("Basic realm=" +:+ dq +:+ "Enter credentials" +:+ dq);
   EvStatus 401; EvSend None].

Definition no_event (p : Event → bool) (t : list Event) : Prop :=
  Forall (λ ev, p ev = false) t.

(** ** Example nodes and requests *)
Module Examples.

Definition trigger : INode :=
  {| name := "On form submission"; typeVersion := 1%float |}.

Definition formParameters (authentication responseMode : string) (options : JsVal)
  : gmap string JsVal :=
  list_to_map
    [("authentication", JStr authentication);
     ("jsonSchema", JStr Demo.contact_schema_text);
     ("uiSchema", JStr "{}"); ("data", JStr "{}"); ("config", JStr "{}");
     ("responseMode", JStr responseMode);
     ("options", options)].

Definition basicStore : gmap string (gmap string string) :=
  {[ "httpBasicAuth" := list_to_map [("user", "alice"); ("password", "s3cret")] ]}.

Definition get (hs : list (string * string)) : Request :=
  {| method := "GET"; headers := list_to_map hs; body := ""; query := None |}.

Definition post (text : string) (q : option (list (string * JsVal))) : Request :=
  {| method := "POST"; headers := ∅; body := text; query := q |}.

Definition context (params : gmap string JsVal) (store : gmap string (gmap string string))
           (children : list NodeTypeAndVersion) (req : Request) : Context :=
  {| nodeParameters := params; credentials := store; node := trigger;
     childNodes := children; request := req;
     timezone := "Europe/Sofia"; mode := "manual"; now := 1700000000000 |}.

(** Basic authentication, user alice with password s3cret stored. *)
Definition basic (req : Request) : Context :=
  context (formParameters "basicAuth" "onReceived" (JObj [])) basicStore [] req.

(** [alice:s3cret] and [alice:wrong] in base64. *)
Definition right_password : Context :=
  basic (get [("authorization", "Basic YWxpY2U6czNjcmV0")]).
Definition wrong_password : Context :=
  basic (get [("authorization", "Basic YWxpY2U6d3Jvbmc=")]).
Definition no_password : Context := basic (get []).

(** Basic authentication selected, no credential stored on the node. *)
Definition no_credential : Context :=
  context (formParameters "basicAuth" "onReceived" (JObj [])) ∅ []
          (get [("authorization", "Basic YWxpY2U6czNjcmV0")]).

(** Bot filtering on, and a crawler asking for the form. *)
Definition crawler : Context :=
  context (formParameters "basicAuth" "onReceived" (JObj [("ignoreBots", JBool true)]))
          basicStore []
          (get [("user-agent", "Mozilla/5.0 (compatible; Googlebot/2.1)");
                ("authorization", "Basic YWxpY2U6czNjcmV0")]).

(** Respond via an explicit node, and no such node downstream. *)
Definition respond_node_absent : Context :=
  context (formParameters "none" "responseNode" (JObj [])) ∅ [] (get []).

Definition open_form (options : JsVal) (children : list NodeTypeAndVersion)
           (req : Request) : Context :=
  context (formParameters "none" "onReceived" options) ∅ children req.

(** A form that redirects after submission. *)
Definition redirecting_form : Context :=
  open_form
    (JObj [("respondWithOptions",
            JObj [("values", JObj [("respondWith", JStr "redirect");
                                   ("redirectUrl", JStr "https://example.com/thanks")])])])
    [] (get []).

Definition wait_node : NodeTypeAndVersion :=
  {| nt_name := "Wait"; nt_type := "n8n-nodes-base.wait"; nt_typeVersion := 1%float;
     nt_parameters := JObj [("resume", JStr "form")] |}.

(** The same form, with a wait node that resumes on a form downstream. *)
Definition redirecting_form_with_wait : Context :=
  open_form
    (JObj [("respondWithOptions",
            JObj [("values", JObj [("respondWith", JStr "redirect");
                                   ("redirectUrl", JStr "https://example.com/thanks")])])])
    [wait_node] (get []).

(** The open form asked for by two different clients. *)
Definition first_visit : Context := open_form (JObj []) [] (get []).
Definition second_visit : Context :=
  context (formParameters "none" "onReceived" (JObj [])) basicStore []
          {| method := "GET";
             headers := {[ "user-agent" := "Mozilla/5.0"; "accept" := "text/html" ]};
             body := ""; query := Some [("source", JStr "mail")] |}.

(** Jo fills in the default form, opened with a query string. *)
Definition jo_submits : Context :=
  open_form (JObj []) [] (post Demo.body_jo (Some [("source", JStr "mail")])).

Definition jo_record : INodeExecutionData :=
  {| json := [("data", Demo.jo); ("event", JUndefined);
              ("submittedAt", JStr "Europe/Sofia@1700000000000");
              ("formMode", JStr "test");
              ("formQueryParameters", JObj [("source", JStr "mail")])] |}.

(** A submission that lacks two required fields. *)
Definition incomplete_submission : Context :=
  open_form (JObj []) [] (post Demo.body_incomplete None).

(** A form whose schema gives [name] a default, submitted empty. *)
Definition defaulted_form : Context :=
  context (<["jsonSchema" := JStr Demo.default_schema_text]>
             (formParameters "none" "onReceived" (JObj [])))
          ∅ [] (post Demo.body_empty_data None).

End Examples.

(** A computation that writes nothing on the response. *)
Definition quiet {A} (m : M A) : Prop := no_event is_response_write (trace m).

(** *** Submissions *)

(** The check of the [event] field: none when no event schema is
    configured, else what the compiled event schema reports for it. *)
Inductive EventCheck (L : Libs) (ctx : Context) (request : JsVal)
  : option AjvResult → Prop :=
| event_unchecked :
    truthy (get_opt (optionsOf ctx) "eventJsonSchema") = false →
    EventCheck L ctx request None
| event_checked (schemaJson : JsVal) (validateEvent : JsVal → AjvResult) :
    truthy (get_opt (optionsOf ctx) "eventJsonSchema") = true →
    JSON_parse L (to_str L (get_opt (optionsOf ctx) "eventJsonSchema")) = Some schemaJson →
    ajv_compile L schemaJson = Some validateEvent →
    EventCheck L ctx request (Some (validateEvent (get_opt request "event"))).

(** ajv reports at least one error for a candidate it rejects. *)
Definition ajvReportsErrors (L : Libs) : Prop :=
  ∀ schema validate candidate,
    ajv_compile L schema = Some validate →
    av_valid (validate candidate) = false →
    ∃ e es, av_errors (validate candidate) = JArr (e :: es).

(** What the handler writes when a validation fails. *)
Definition validationFailure (L : Libs) (message : string) (errors : JsVal) : list Event :=
  [EvWriteHead 400 [("Content-Type", "application/json")];
   EvEnd (JSON_stringify L (JObj [("message", JStr message); ("errors", errors)]))].

(** The keys of a record. *)
Definition has_key (k : string) (fs : list (string * JsVal)) : bool :=
  existsb (λ kv, String.eqb (fst kv) k) fs.

(** *** The form page *)

(** The form-submitted text the configuration selects: the text of the
    response options when they ask for a text, or the plain option when
    there are no response options. *)
Inductive CustomTextSelected (options : JsVal) (text : JsVal) : Prop :=
| text_of_response_options :
    truthy (get_opt options "respondWithOptions") = true →
    get_opt (get_opt (get_opt options "respondWithOptions") "values") "respondWith"
    = JStr "text" →
    get_opt (get_opt (get_opt options "respondWithOptions") "values") "formSubmittedText"
    = text →
    text ≠ JUndefined →
    CustomTextSelected options text
| text_of_options :
    truthy (get_opt options "respondWithOptions") = false →
    get_opt options "formSubmittedText" = text →
    text ≠ JUndefined →
    CustomTextSelected options text.

(** A redirect URL is configured. *)
Definition redirectConfigured (options : JsVal) (url : JsVal) : Prop :=
  truthy (get_opt options "respondWithOptions") = true
  ∧ get_opt (get_opt (get_opt options "respondWithOptions") "values") "respondWith"
    = JStr "redirect"
  ∧ get_opt (get_opt (get_opt options "respondWithOptions") "values") "redirectUrl" = url
  ∧ truthy url = true.

(** A computation that returns. *)
Definition returns {A} (m : M A) : Prop := ∃ a, outcome m = Returns a.

(** The node is configured well enough for a page to be generated: the
    four form parameters are set, the options are an object, response
    options (when present) carry their values, and sanitizing a custom
    style leaves something to embed. *)
Definition pageConfigured (L : Libs) (ctx : Context) : Prop :=
  let options := optionsOf ctx in
  is_Some (nodeParameters ctx !! "jsonSchema")
  ∧ is_Some (nodeParameters ctx !! "uiSchema")
  ∧ is_Some (nodeParameters ctx !! "data")
  ∧ is_Some (nodeParameters ctx !! "config")
  ∧ is_nullish options = false
  ∧ (truthy (get_opt options "respondWithOptions") = true →
     is_nullish (get_opt (get_opt options "respondWithOptions") "values") = false)
  ∧ (truthy (get_opt options "customStyle") = true →
     is_undefined (sanitizeCustomCss L (get_opt options "customStyle")) = false).

(** A wait-for-form condition downstream: a form-continuation node, or a
    wait node that resumes on a form. *)
Definition waitsForForm (L : Libs) (ctx : Context) : Prop :=
  ∃ n, In n (childNodes ctx)
       ∧ (nt_type n = FORM_NODE_TYPE L
          ∨ (nt_type n = WAIT_NODE_TYPE L
             ∧ get_opt (nt_parameters n) "resume" = JStr "form")).

(** Two contexts of one node configuration: the same parameter values
    (options included), the same node and the same downstream nodes. *)
Definition sameNodeConfiguration (c1 c2 : Context) : Prop :=
  nodeParameters c1 = nodeParameters c2
  ∧ node c1 = node c2
  ∧ childNodes c1 = childNodes c2.

(** The handler answered the GET request of [ctx] with status 200 and the
    document [html]. *)
Definition servedPage (L : Libs) (ctx : Context) (html : string) : Prop :=
  method (request ctx) = "GET"
  ∧ http_status (trace (webhook L ctx)) = Some 200
  ∧ http_body (trace (webhook L ctx)) = Some (Some html).

(** The paragraph that shows [text] once the form is submitted. *)
Definition submittedParagraph (text : string) : string :=
  "<p id='submitted-content'>
              " +:+ text +:+ "
            </p>".

(** ** Further vocabulary *)

(** The credential type each authentication mode reads. *)
Definition credentialNameOf (m : AuthMode) : option string :=
  match m with
  | AuthNone => None
  | BasicAuth => Some "httpBasicAuth"
  | BearerAuth => Some "httpBearerAuth"
  | HeaderAuth => Some "httpHeaderAuth"
  | JwtAuth => Some "jwtAuth"
  end.

(** The four answers the handler writes on the response itself. *)
Inductive Answer (L : Libs) : list Event → Prop :=
| answer_challenge : Answer L challenge
| answer_page (html : string) : Answer L [EvStatus 200; EvSend (Some html)]
| answer_validation_failed (message : string) (errors : JsVal) :
    Answer L (validationFailure L message errors)
| answer_method_not_allowed :
    Answer L [EvStatus 405; EvSend (Some "Method not allowed")].

(** A run that either answered the request, with one answer written last,
    or wrote nothing on the response. *)
Definition settled (L : Libs) (m : M IWebhookResponseData) : Prop :=
  match outcome m with
  | Returns NoWebhookResponse =>
      ∃ t w, trace m = t ++ w ∧ no_event is_response_write t ∧ Answer L w
  | _ => no_event is_response_write (trace m)
  end.

(** The character [c] occurs in [s]. *)
Fixpoint has_char (c : ascii) (s : string) : bool :=
  match s with
  | EmptyString => false
  | String d s' => Ascii.eqb d c || has_char c s'
  end.


(** The link the page holds for a redirect to [url]. *)
Definition redirectLink (url : string) : string :=
  "<a id='redirectUrl' href='" +:+ url +:+ "' style='display: none;'></a>".

Module MoreExamples.

(** An authentication value the routine does not know. *)
Definition unknown_mode : Context :=
  Examples.context (Examples.formParameters "oauth2" "onReceived" (JObj []))
                   Examples.basicStore [] (Examples.get []).

(** No authentication parameter at all. *)
Definition no_mode : Context :=
  Examples.context (delete "authentication"
                      (Examples.formParameters "none" "onReceived" (JObj [])))
                   ∅ [] (Examples.get []).

Definition bearerStore : gmap string (gmap string string) :=
  {[ "httpBearerAuth" := {[ "token" := "t0ken" ]} ]}.

Definition bearer (hs : list (string * string)) : Context :=
  Examples.context (Examples.formParameters "bearerAuth" "onReceived" (JObj []))
                   bearerStore [] (Examples.get hs).





(** The open form asked for with PUT. *)
Definition put_request : Context :=
  Examples.open_form (JObj []) []
    {| method := "PUT"; headers := ∅; body := ""; query := None |}.

(** A submission whose body is not JSON. *)
Definition garbled_submission : Context :=
  Examples.open_form (JObj []) [] (Examples.post "name=Jo" None).

(** An incomplete submission to a form whose event schema is not JSON. *)
Definition incomplete_with_bad_event_schema : Context :=
  Examples.open_form (JObj [("eventJsonSchema", JStr "{not json")]) []
                     (Examples.post Demo.body_incomplete None).

(** A form configured to show no text after submission. *)
Definition silent_form : Context :=
  Examples.open_form
    (JObj [("respondWithOptions",
            JObj [("values", JObj [("respondWith", JStr "text");
                                   ("formSubmittedText", JStr "")])])])
    [] (Examples.get []).


End MoreExamples.

(** ** The embedding on concrete inputs *)

Example split_authorization_header :
  split " " "Bearer abc.def.ghi" = ["Bearer"; "abc.def.ghi"].
Proof. reflexivity. Qed.

Example split_keeps_empty_pieces :
  split "-----" "-----BEGIN PUBLIC KEY-----MIIB-----END PUBLIC KEY-----"
  = [""; "BEGIN PUBLIC KEY"; "MIIB"; "END PUBLIC KEY"; ""].
Proof. reflexivity. Qed.

Example formatPrivateKey_one_line_pem :
  formatPrivateKey (Some "-----BEGIN PUBLIC KEY----- MIIB IjAN -----END PUBLIC KEY-----") true
  = Some "-----BEGIN PUBLIC KEY-----
MIIB
IjAN
-----END PUBLIC KEY-----".
Proof. reflexivity. Qed.

Example formatPrivateKey_multi_line_untouched :
  formatPrivateKey (Some "-----BEGIN PUBLIC KEY-----
MIIB") true
  = Some "-----BEGIN PUBLIC KEY-----
MIIB".
Proof. reflexivity. Qed.

Example toLowerCase_header_name : toLowerCase "X-Api-Key" = "x-api-key".
Proof. reflexivity. Qed.

Example escape_slashes_closing_tag : escape_slashes "</script>" = "<\/script>".
Proof. reflexivity. Qed.

Example basic_header_decoded :
  Demo.basic_auth (request Examples.wrong_password) = Some ("alice", "wrong").
Proof. vm_compute. reflexivity. Qed.

Example form_served_on_get :
  http_status (trace (webhook Demo.libs Examples.first_visit)) = Some 200
  ∧ outcome (webhook Demo.libs Examples.first_visit) = Returns NoWebhookResponse.
Proof. vm_compute. split; reflexivity. Qed.

Example missing_header_challenged :
  trace (webhook Demo.libs Examples.no_password)
  = EvGetCredentials "httpBasicAuth" :: challenge.
Proof. vm_compute. reflexivity. Qed.

Example incomplete_submission_refused :
  http_status (trace (webhook Demo.libs Examples.incomplete_submission)) = Some 400
  ∧ outcome (webhook Demo.libs Examples.incomplete_submission) = Returns NoWebhookResponse.
Proof. vm_compute. split; reflexivity. Qed.

Example other_method_refused :
  http_status (trace (webhook Demo.libs
     (Examples.open_form (JObj []) []
        {| method := "PUT"; headers := ∅; body := ""; query := None |}))) = Some 405.
Proof. vm_compute. reflexivity. Qed.

(** ** Laws of the computation type *)

Lemma bind_run {A B} (m : M A) (k : A → M B) (a : A) :
  outcome m = Returns a →
  bind m k = (trace m ++ trace (k a), outcome (k a)).
Proof.
  destruct m as [t o]; simpl; intros ->.
  unfold bind. destruct (k a); reflexivity.
Qed.

Lemma bind_throws {A B} (m : M A) (k : A → M B) (e : Exn) :
  outcome m = Throws e →
  bind m k = (trace m, Throws e).
Proof. destruct m as [t o]; simpl; intros ->; reflexivity. Qed.

Lemma outcome_bind_inv {A B} (m : M A) (k : A → M B) (b : B) :
  outcome (bind m k) = Returns b →
  ∃ a, outcome m = Returns a ∧ outcome (k a) = Returns b.
Proof.
  destruct m as [t [a|e]]; simpl.
  - destruct (k a) eqn:E; simpl; intros ->. exists a. rewrite E. auto.
  - discriminate.
Qed.

Lemma get_prop_non_nullish (v : JsVal) (k : string) :
  is_nullish v = false → get_prop v k = ret (get_opt v k).
Proof. destruct v; simpl; intros H; try discriminate; reflexivity. Qed.

Lemma get_prop_returns (v : JsVal) (k : string) (x : JsVal) :
  outcome (get_prop v k) = Returns x → is_nullish v = false ∧ x = get_opt v k.
Proof. destruct v; simpl; intros H; inversion H; auto. Qed.

Lemma get_prop_trace (v : JsVal) (k : string) : trace (get_prop v k) = [].
Proof. destruct v; reflexivity. Qed.

(** ** The response-mode validator *)

Lemma getNodeParameter_fallback (ctx : Context) (name : string) (d : JsVal) :
  getNodeParameter ctx name (Some d) = ret (parameterOr ctx name d).
Proof.
  unfold getNodeParameter, parameterOr.
  destruct (nodeParameters ctx !! name); reflexivity.
Qed.

Lemma is_str_true (v : JsVal) (s : string) : is_str v s = true ↔ v = JStr s.
Proof.
  destruct v; simpl; try (split; [discriminate | intros H; inversion H]).
  rewrite String.eqb_eq. split; [intros -> | intros H; inversion H]; reflexivity.
Qed.

Lemma is_str_false (v : JsVal) (s : string) : is_str v s = false ↔ v ≠ JStr s.
Proof.
  rewrite <- is_str_true. destruct (is_str v s); split; congruence.
Qed.

Lemma respondToWebhookConnected_spec (ctx : Context) :
  existsb (fun n => String.eqb (nt_type n) RESPOND_TO_WEBHOOK_NODE_TYPE) (childNodes ctx) = true
  ↔ respondToWebhookConnected ctx.
Proof.
  unfold respondToWebhookConnected. rewrite existsb_exists.
  split; intros (n & Hin & Hn); exists n; split; auto.
  - apply String.eqb_eq; assumption.
  - apply String.eqb_eq; assumption.
Qed.

Lemma validateResponseModeConfiguration_trace (ctx : Context) :
  trace (validateResponseModeConfiguration ctx) = [EvGetChildNodes].
Proof.
  unfold validateResponseModeConfiguration.
  rewrite getNodeParameter_fallback. unfold getChildNodes. simpl.
  destruct (existsb _ (childNodes ctx)); simpl;
    destruct (is_str _ "responseNode"); simpl;
    destruct (typeVersion (node ctx) <=? 2.1)%float; simpl;
    destruct (2.1 <? typeVersion (node ctx))%float; reflexivity.
Qed.

Lemma validateResponseModeConfiguration_outcome (ctx : Context) :
  (ResponseModeMisconfigured ctx ∧
   ∃ msg desc, outcome (validateResponseModeConfiguration ctx)
               = Throws (NodeOperationError msg desc))
  ∨ (¬ ResponseModeMisconfigured ctx ∧
     outcome (validateResponseModeConfiguration ctx) = Returns tt).
Proof.
  unfold validateResponseModeConfiguration.
  rewrite getNodeParameter_fallback. unfold getChildNodes. simpl.
  pose proof (respondToWebhookConnected_spec ctx) as Hconn.
  destruct (existsb _ (childNodes ctx)) eqn:Econn; simpl.
  - assert (Hc : respondToWebhookConnected ctx) by (apply Hconn; reflexivity).
    destruct (is_str _ "responseNode") eqn:Emode; simpl.
    + destruct (2.1 <? typeVersion (node ctx))%float eqn:Egt; simpl.
      * left. split; [apply respond_node_unsupported; assumption | eauto].
      * right. split; [| reflexivity].
        apply is_str_true in Emode.
        intros [Hm Hn | _ Hm _ | _ Hv]; congruence.
    + apply is_str_false in Emode.
      destruct (typeVersion (node ctx) <=? 2.1)%float eqn:Ele; simpl.
      * left. split; [apply respond_node_not_delegated; assumption | eauto].
      * destruct (2.1 <? typeVersion (node ctx))%float eqn:Egt; simpl.
        -- left. split; [apply respond_node_unsupported; assumption | eauto].
        -- right. split; [| reflexivity].
           intros [Hm Hn | _ _ Hv | _ Hv]; congruence.
  - assert (Hc : ¬ respondToWebhookConnected ctx).
    { intros H. apply Hconn in H. discriminate. }
    destruct (is_str _ "responseNode") eqn:Emode; simpl.
    + left. apply is_str_true in Emode.
      split; [apply respond_node_missing; assumption | eauto].
    + right. split; [| reflexivity].
      apply is_str_false in Emode.
      intros [Hm _ | H _ _ | H _]; [congruence | exact (Hc H) | exact (Hc H)].
Qed.

(** ** The authentication routine *)

Lemma falsy_field_set (f : option string) :
  falsy_field f = bool_decide (set_field f = None).
Proof. destruct f as [[|c s]|]; reflexivity. Qed.

Lemma set_field_Some (f : option string) (s : string) :
  set_field f = Some s → f = Some s.
Proof. destruct f as [[|c r]|]; simpl; congruence. Qed.

Lemma getNodeParameter_set (ctx : Context) (k : string) (v : JsVal) (d : option JsVal) :
  nodeParameters ctx !! k = Some v → getNodeParameter ctx k d = ret v.
Proof. unfold getNodeParameter. intros ->. reflexivity. Qed.

Ltac run_auth :=
  unfold validateWebhookAuthentication, getCredentials, cred_field,
    bind, ret, throw, emit in *; simpl in *.

Lemma validateWebhookAuthentication_verdict (L : Libs) (ctx : Context) (m : AuthMode) :
  nodeParameters ctx !! "authentication" = Some (JStr (authModeName m)) →
  verdict (outcome (validateWebhookAuthentication L ctx "authentication"))
  = expectedVerdict m (hasStoredCredential ctx m) (presentedCredentials L ctx m).
Proof.
  intros Hmode.
  unfold validateWebhookAuthentication.
  rewrite (getNodeParameter_set _ _ _ _ Hmode).
  destruct m; simpl.
  - reflexivity.
  - (* basicAuth *)
    unfold storedBasicCredential, getCredentials, cred_field, bind, ret, throw, emit; simpl.
    destruct (credentials ctx !! "httpBasicAuth") as [c|]; simpl; [| reflexivity].
    destruct (c !! "user") as [[|a u]|]; simpl; try reflexivity.
    destruct (c !! "password") as [[|b p]|]; simpl; try reflexivity.
    destruct (basicAuth L (request ctx)) as [[n q]|]; simpl; [| reflexivity].
    repeat case_bool_decide; simpl; first [reflexivity | congruence].
  - (* bearerAuth *)
    unfold storedBearerToken, getCredentials, cred_field, bind, ret, throw, emit; simpl.
    destruct (credentials ctx !! "httpBearerAuth") as [c|]; simpl; [| reflexivity].
    destruct (c !! "token") as [[|a t]|]; simpl; try reflexivity.
    destruct (headers (request ctx) !! "authorization") as [h|]; simpl.
    + repeat case_bool_decide; simpl; first [reflexivity | congruence].
    + reflexivity.
  - (* headerAuth *)
    unfold storedHeader, getCredentials, cred_field, bind, ret, throw, emit; simpl.
    destruct (credentials ctx !! "httpHeaderAuth") as [c|]; simpl; [| reflexivity].
    destruct (c !! "name") as [[|a n]|]; simpl; try reflexivity.
    destruct (c !! "value") as [[|b v]|]; simpl; try reflexivity.
    destruct (headers (request ctx) !! _) as [x|] eqn:Eh; simpl.
    + repeat case_bool_decide; simpl; try first [reflexivity | congruence].
      all: try (exfalso; eauto; fail).
    + repeat case_bool_decide; simpl; try first [reflexivity | congruence].
      all: try (exfalso; match goal with H : is_Some None |- _ => destruct H; discriminate end).
  - (* jwtAuth *)
    unfold storedJwtCredential, bearerToken, jwtKey, getCredentials, cred_field,
      bind, ret, throw, emit; simpl.
    destruct (credentials ctx !! "jwtAuth") as [c|]; simpl.
    + destruct (headers (request ctx) !! "authorization") as [h|]; simpl; [| reflexivity].
      destruct (split " " h !! 1%nat) as [[|a t]|]; simpl; try reflexivity.
      destruct (jwt_verify L _ _ _); reflexivity.
    + destruct (headers (request ctx) !! "authorization") as [h|]; simpl; [| reflexivity].
      destruct (set_field _); reflexivity.
Qed.

Lemma validateWebhookAuthentication_trace (L : Libs) (ctx : Context) (prop : string) :
  Forall (λ ev, is_credential_lookup ev = true)
         (trace (validateWebhookAuthentication L ctx prop)).
Proof.
  unfold validateWebhookAuthentication, getNodeParameter.
  destruct (nodeParameters ctx !! prop) as [authentication|]; simpl; [| constructor].
  unfold getCredentials, bind, ret, throw, emit; simpl.
  repeat (case_match; simpl; simplify_eq; try (repeat constructor; fail)).
Qed.

Lemma bind_ret_l {A B} (a : A) (k : A → M B) : bind (ret a) k = k a.
Proof. unfold bind, ret. destruct (k a); reflexivity. Qed.

Lemma no_event_app (p : Event → bool) (t1 t2 : list Event) :
  no_event p (t1 ++ t2) ↔ no_event p t1 ∧ no_event p t2.
Proof. unfold no_event. apply Forall_app. Qed.

Lemma credential_lookups_only (t : list Event) :
  Forall (λ ev, is_credential_lookup ev = true) t →
  no_event is_payload_processing t ∧ no_event is_response_write t.
Proof.
  unfold no_event. induction 1 as [|ev t Hev _ [IH1 IH2]]; [split; constructor |].
  destruct ev; try discriminate. split; constructor; auto.
Qed.

Lemma http_status_app (t1 t2 : list Event) :
  no_event is_response_write t1 → http_status (t1 ++ t2) = http_status t2.
Proof.
  unfold no_event. induction 1 as [|ev t Hev _ IH]; [reflexivity |].
  destruct ev; simpl in *; try discriminate; assumption.
Qed.

Lemma http_body_app (t1 t2 : list Event) :
  no_event is_response_write t1 → http_body (t1 ++ t2) = http_body t2.
Proof.
  unfold no_event. induction 1 as [|ev t Hev _ IH]; [reflexivity |].
  destruct ev; simpl in *; try discriminate; assumption.
Qed.

(** The gate, case by case on how the authentication routine finished. *)
Lemma authenticate_run (L : Libs) (ctx : Context) (options : JsVal) :
  is_nullish options = false →
  truthy (get_opt options "ignoreBots") && isbot L (headers (request ctx) !! "user-agent")
  = false →
  let auth := validateWebhookAuthentication L ctx FORM_TRIGGER_AUTHENTICATION_PROPERTY in
  authenticate L ctx options =
  match outcome auth with
  | Returns _ => (trace auth, Returns None)
  | Throws (WebhookAuthorizationError _ _) =>
      (trace auth ++ challenge, Returns (Some NoWebhookResponse))
  | Throws e => (trace auth, Throws e)
  end.
Proof.
  intros Hopt Hbot. unfold authenticate.
  rewrite (get_prop_non_nullish _ _ Hopt), bind_ret_l, Hbot.
  destruct (validateWebhookAuthentication L ctx _) as [t [v|e]]; simpl.
  - rewrite app_nil_r. reflexivity.
  - destruct e; simpl; rewrite ?app_nil_r; reflexivity.
Qed.

Lemma authenticate_bot (L : Libs) (ctx : Context) (options : JsVal) :
  is_nullish options = false →
  truthy (get_opt options "ignoreBots") && isbot L (headers (request ctx) !! "user-agent")
  = true →
  authenticate L ctx options = (challenge, Returns (Some NoWebhookResponse)).
Proof.
  intros Hopt Hbot. unfold authenticate.
  rewrite (get_prop_non_nullish _ _ Hopt), bind_ret_l, Hbot. reflexivity.
Qed.

(** A request the gate lets through caused credential look-ups only. *)
Lemma authenticate_pass (L : Libs) (ctx : Context) (options : JsVal) :
  outcome (authenticate L ctx options) = Returns None →
  is_nullish options = false
  ∧ Forall (λ ev, is_credential_lookup ev = true) (trace (authenticate L ctx options)).
Proof.
  intros Hrun.
  destruct (is_nullish options) eqn:Hopt.
  { destruct options; try discriminate; inversion Hrun. }
  split; [reflexivity |].
  destruct (truthy (get_opt options "ignoreBots")
            && isbot L (headers (request ctx) !! "user-agent")) eqn:Hbot.
  - rewrite (authenticate_bot _ _ _ Hopt Hbot) in Hrun. discriminate.
  - rewrite (authenticate_run _ _ _ Hopt Hbot) in *.
    pose proof (validateWebhookAuthentication_trace L ctx
                  FORM_TRIGGER_AUTHENTICATION_PROPERTY) as Htr.
    destruct (outcome (validateWebhookAuthentication L ctx _)) as [v|[]];
      simpl in *; try discriminate; assumption.
Qed.

(** A request the gate answers gets the challenge and nothing else. *)
Lemma authenticate_answered (L : Libs) (ctx : Context) (options : JsVal)
      (r : IWebhookResponseData) :
  outcome (authenticate L ctx options) = Returns (Some r) →
  r = NoWebhookResponse
  ∧ ∃ t, trace (authenticate L ctx options) = t ++ challenge
         ∧ Forall (λ ev, is_credential_lookup ev = true) t.
Proof.
  intros Hrun.
  destruct (is_nullish options) eqn:Hopt.
  { destruct options; try discriminate; inversion Hrun. }
  destruct (truthy (get_opt options "ignoreBots")
            && isbot L (headers (request ctx) !! "user-agent")) eqn:Hbot.
  - rewrite (authenticate_bot _ _ _ Hopt Hbot) in *. simpl in *.
    split; [congruence |]. exists []. split; [reflexivity | constructor].
  - rewrite (authenticate_run _ _ _ Hopt Hbot) in *.
    pose proof (validateWebhookAuthentication_trace L ctx
                  FORM_TRIGGER_AUTHENTICATION_PROPERTY) as Htr.
    destruct (outcome (validateWebhookAuthentication L ctx _)) as [v|[]];
      simpl in *; try discriminate.
    split; [congruence |]. eexists; split; [reflexivity | assumption].
Qed.

Lemma webhook_unfold (L : Libs) (ctx : Context) :
  webhook L ctx =
  bind (authenticate L ctx (optionsOf ctx))
       (λ answered, match answered with
                    | Some response => ret response
                    | None => serveRequest L ctx (optionsOf ctx)
                    end).
Proof.
  unfold webhook. rewrite getNodeParameter_fallback, bind_ret_l. reflexivity.
Qed.

Lemma webhook_pass (L : Libs) (ctx : Context) :
  outcome (authenticate L ctx (optionsOf ctx)) = Returns None →
  webhook L ctx =
  (trace (authenticate L ctx (optionsOf ctx)) ++ trace (serveRequest L ctx (optionsOf ctx)),
   outcome (serveRequest L ctx (optionsOf ctx))).
Proof. intros H. rewrite webhook_unfold, (bind_run _ _ _ H). reflexivity. Qed.

Lemma webhook_answered (L : Libs) (ctx : Context) (r : IWebhookResponseData) :
  outcome (authenticate L ctx (optionsOf ctx)) = Returns (Some r) →
  webhook L ctx = (trace (authenticate L ctx (optionsOf ctx)), Returns r).
Proof.
  intros H. rewrite webhook_unfold, (bind_run _ _ _ H). simpl.
  rewrite app_nil_r. reflexivity.
Qed.

(** ** The claims *)




(** C3. Under basicAuth the authentication routine raises an authorization
    error with code 500 when the stored credential (user or password) is
    absent; with a credential stored, it raises 401 when the request has no
    Basic authorization header and 403 when the decoded pair differs from
    the stored one; and it returns normally exactly when the decoded pair
    is the stored pair. *)
Theorem C3_basic_auth (L : Libs) (ctx : Context) :
  nodeParameters ctx !! "authentication" = Some (JStr "basicAuth") →
  let run := outcome (validateWebhookAuthentication L ctx "authentication") in
  (storedBasicCredential ctx = None → verdict run = Rejected 500)
  ∧ (is_Some (storedBasicCredential ctx) →
     basicAuth L (request ctx) = None → verdict run = Rejected 401)
  ∧ (is_Some (storedBasicCredential ctx) →
     ∀ provided, basicAuth L (request ctx) = Some provided →
                 Some provided ≠ storedBasicCredential ctx →
                 verdict run = Rejected 403)
  ∧ (verdict run = Accepted
     ↔ ∃ user password,
         storedBasicCredential ctx = Some (user, password)
         ∧ basicAuth L (request ctx) = Some (user, password)).
Proof.
  intros Hmode run.
  pose proof (validateWebhookAuthentication_verdict L ctx BasicAuth Hmode) as Hv.
  fold run in Hv. rewrite Hv. clear Hv run. simpl.
  destruct (storedBasicCredential ctx) as [[user password]|] eqn:Estored.
  - rewrite bool_decide_eq_true_2 by eauto. simpl.
    split; [discriminate |]. split; [intros _ -> | split].
    + reflexivity.
    + intros _ provided -> Hne. rewrite bool_decide_eq_false_2 by exact Hne. reflexivity.
    + destruct (basicAuth L (request ctx)) as [provided|]; simpl.
      * case_bool_decide as Heq; simpl.
        -- split; [intros _ | reflexivity]. exists user, password. split; congruence.
        -- split; [discriminate |]. intros (u & p & Hs & Hp). congruence.
      * split; [discriminate |]. intros (u & p & _ & Hp). discriminate.
  - rewrite bool_decide_eq_false_2 by (intros [x Hx]; discriminate). simpl.
    split; [reflexivity |]. split; [intros [x Hx]; discriminate |].
    split; [intros [x Hx]; discriminate |].
    split; [discriminate |]. intros (u & p & Hs & _). discriminate.
Qed.

(** C3, witness: the stored pair presented, and accepted. *)
Lemma C3_basic_auth_witness :
  nodeParameters Examples.right_password !! "authentication" = Some (JStr "basicAuth")
  ∧ verdict (outcome (validateWebhookAuthentication Demo.libs Examples.right_password
                        "authentication")) = Accepted.
Proof.
  split; [vm_compute; reflexivity |].
  apply (C3_basic_auth Demo.libs Examples.right_password); [vm_compute; reflexivity |].
  exists "alice", "s3cret". split; vm_compute; reflexivity.
Defined.

(** C4, what the handler does: with bot filtering enabled and a user agent
    that matches a bot signature, the request is turned away before any
    authentication check (no credential is looked up, whatever the
    authentication parameter and the store hold) and no form page is sent,
    but the status written on the response is 401 with a Basic challenge,
    not the 403 carried by the error the filter raised. *)
Theorem C4_bot_request_answered_401 (L : Libs) (ctx : Context) :
  is_nullish (optionsOf ctx) = false →
  botRejected L ctx = true →
  trace (webhook L ctx) = challenge
  ∧ outcome (webhook L ctx) = Returns NoWebhookResponse
  ∧ http_status (trace (webhook L ctx)) = Some 401
  ∧ http_body (trace (webhook L ctx)) = Some None
  ∧ no_event is_credential_lookup (trace (webhook L ctx)).
Proof.
  intros Hopt Hbot.
  pose proof (authenticate_bot L ctx (optionsOf ctx) Hopt Hbot) as Hgate.
  assert (Hans : outcome (authenticate L ctx (optionsOf ctx))
                 = Returns (Some NoWebhookResponse)) by (rewrite Hgate; reflexivity).
  rewrite (webhook_answered _ _ _ Hans), Hgate. simpl.
  repeat split; repeat constructor.
Qed.

(** C4, the failing request: a crawler asking for a form that has bot
    filtering enabled. *)
Lemma C4_bot_request_answered_401_witness :
  botRejected Demo.libs Examples.crawler = true
  ∧ http_status (trace (webhook Demo.libs Examples.crawler)) = Some 401.
Proof.
  split; [vm_compute; reflexivity |].
  apply (C4_bot_request_answered_401 Demo.libs Examples.crawler); vm_compute; reflexivity.
Defined.

(** C5. The response-mode validator raises a workflow-level configuration
    error exactly when the mode is responseNode and no respond-to-webhook
    node is connected, or such a node is connected while the mode is not
    responseNode and the type version is at most 2.1, or such a node is
    connected and the type version exceeds 2.1; otherwise it returns. The
    handler runs it on every request that passed authentication, whatever
    the method, and when it raises nothing else has happened: the error
    propagates, no payload was parsed and nothing was written on the
    response. *)
Theorem C5_response_mode_validation (L : Libs) (ctx : Context) :
  ((∃ msg desc, outcome (validateResponseModeConfiguration ctx)
                = Throws (NodeOperationError msg desc))
   ↔ ResponseModeMisconfigured ctx)
  ∧ (outcome (validateResponseModeConfiguration ctx) = Returns tt
     ↔ ¬ ResponseModeMisconfigured ctx)
  ∧ (outcome (authenticate L ctx (optionsOf ctx)) = Returns None →
     ∀ e, outcome (validateResponseModeConfiguration ctx) = Throws e →
          outcome (webhook L ctx) = Throws e
          ∧ trace (webhook L ctx)
            = trace (authenticate L ctx (optionsOf ctx)) ++ [EvGetChildNodes]
          ∧ no_event is_payload_processing (trace (webhook L ctx))
          ∧ no_event is_response_write (trace (webhook L ctx))).
Proof.
  pose proof (validateResponseModeConfiguration_outcome ctx) as Hout.
  split; [| split].
  - destruct Hout as [[Hbad Hthrow] | [Hgood Hret]].
    + split; auto.
    + split; [| intros H; contradiction].
      intros (msg & desc & H). congruence.
  - destruct Hout as [[Hbad (msg & desc & Hthrow)] | [Hgood Hret]].
    + split; [congruence | intros H; contradiction].
    + split; auto.
  - intros Hpass e He.
    rewrite (webhook_pass _ _ Hpass). simpl.
    pose proof (validateResponseModeConfiguration_trace ctx) as Htr.
    unfold serveRequest. rewrite (bind_throws _ _ _ He), Htr. simpl.
    apply authenticate_pass in Hpass as [_ Hlook].
    apply credential_lookups_only in Hlook as [Hpay Hres].
    split; [reflexivity |]. split; [reflexivity |].
    split; apply no_event_app; split; auto; repeat constructor.
Qed.

(** C5, witness: respond via an explicit node, none connected, on a GET. *)
Lemma C5_response_mode_validation_witness :
  outcome (authenticate Demo.libs Examples.respond_node_absent
             (optionsOf Examples.respond_node_absent)) = Returns None
  ∧ ∃ e, outcome (webhook Demo.libs Examples.respond_node_absent) = Throws e.
Proof.
  split; [vm_compute; reflexivity |].
  eexists.
  apply (C5_response_mode_validation Demo.libs Examples.respond_node_absent);
    vm_compute; reflexivity.
Defined.

(** ** Submissions *)

Ltac bind_inv H :=
  let a := fresh "x" in
  let Ha := fresh "Hx" in
  apply outcome_bind_inv in H as (a & Ha & H).

Lemma emitSubmission_run (L : Libs) (ctx : Context) (options data event : JsVal) :
  is_nullish options = false →
  emitSubmission L ctx options data event =
  ([], Returns (WebhookResponse 200
     [[ {| json :=
             [("data", data); ("event", event);
              ("submittedAt",
               toISO L (if truthy (if is_undefined (get_opt options "useWorkflowTimezone")
                                   then JBool true
                                   else get_opt options "useWorkflowTimezone")
                        then timezone ctx else "UTC") (now ctx));
              ("formMode",
               JStr (if String.eqb (mode ctx) "manual" then "test" else "production"))]
             ++ match query (request ctx) with
                | Some q =>
                    if (0 <? length q)%nat then [("formQueryParameters", JObj q)] else []
                | None => []
                end |} ]])).
Proof.
  intros Hopt. unfold emitSubmission.
  rewrite (get_prop_non_nullish _ _ Hopt), bind_ret_l. reflexivity.
Qed.

Lemma respondValidationFailed_outcome (L : Libs) (message : string) (errors : JsVal) :
  outcome (respondValidationFailed L message errors) = Returns NoWebhookResponse.
Proof. reflexivity. Qed.

(** The only way for the handler to hand data to the workflow is the end of
    the POST branch. *)
Lemma webhook_success_inv (L : Libs) (ctx : Context) (st : Z)
      (wd : list (list INodeExecutionData)) :
  outcome (webhook L ctx) = Returns (WebhookResponse st wd) →
  is_nullish (optionsOf ctx) = false
  ∧ ∃ data event,
      emitSubmission L ctx (optionsOf ctx) data event
      = ([], Returns (WebhookResponse st wd)).
Proof.
  intros Hrun. rewrite webhook_unfold in Hrun.
  bind_inv Hrun. destruct x as [r|].
  - apply authenticate_answered in Hx as [-> _]. discriminate.
  - apply authenticate_pass in Hx as [Hopt _]. split; [exact Hopt |].
    unfold serveRequest in Hrun. bind_inv Hrun.
    destruct (String.eqb (method (request ctx)) "GET").
    { repeat bind_inv Hrun. discriminate. }
    destruct (String.eqb (method (request ctx)) "POST").
    2:{ repeat bind_inv Hrun. discriminate. }
    unfold handleSubmission in Hrun.
    do 6 bind_inv Hrun.
    destruct (av_valid _); [cbn [negb] in Hrun | simpl in Hrun; discriminate].
    bind_inv Hrun.
    destruct (truthy _).
    + do 4 bind_inv Hrun.
      destruct (av_valid _); [cbn [negb] in Hrun | simpl in Hrun; discriminate].
      eexists _, _. rewrite (emitSubmission_run _ _ _ _ _ Hopt) in *.
      simpl in Hrun. rewrite <- Hrun. reflexivity.
    + bind_inv Hrun.
      eexists _, _. rewrite (emitSubmission_run _ _ _ _ _ Hopt) in *.
      simpl in Hrun. rewrite <- Hrun. reflexivity.
Qed.

(** The record of a successful submission, field by field. *)
Lemma webhook_success_record (L : Libs) (ctx : Context) (st : Z)
      (wd : list (list INodeExecutionData)) :
  outcome (webhook L ctx) = Returns (WebhookResponse st wd) →
  ∃ data event,
    st = 200 ∧
    wd = [[ {| json :=
             [("data", data); ("event", event);
              ("submittedAt",
               toISO L (if truthy (if is_undefined
                                        (get_opt (optionsOf ctx) "useWorkflowTimezone")
                                   then JBool true
                                   else get_opt (optionsOf ctx) "useWorkflowTimezone")
                        then timezone ctx else "UTC") (now ctx));
              ("formMode",
               JStr (if String.eqb (mode ctx) "manual" then "test" else "production"))]
             ++ match query (request ctx) with
                | Some q =>
                    if (0 <? length q)%nat then [("formQueryParameters", JObj q)] else []
                | None => []
                end |} ]].
Proof.
  intros Hrun. apply webhook_success_inv in Hrun as (Hopt & data & event & Hemit).
  rewrite (emitSubmission_run _ _ _ _ _ Hopt) in Hemit.
  exists data, event. inversion Hemit. split; reflexivity.
Qed.

(** C6. The record of every successful submission holds a submittedAt
    field, the instant of the submission rendered by the date library in
    the workflow's time zone when useWorkflowTimezone is true or unset and
    in UTC when it is false, and a formMode field that is test exactly when
    the execution mode is manual and production otherwise. Neither field
    comes from the client: another request served in the same context
    yields the same two values. *)
Theorem C6_submission_stamp (L : Libs) (ctx : Context) (st : Z)
        (wd : list (list INodeExecutionData)) :
  outcome (webhook L ctx) = Returns (WebhookResponse st wd) →
  ∃ record,
    wd = [[record]]
    ∧ has_key "submittedAt" (json record) = true
    ∧ (get_opt (optionsOf ctx) "useWorkflowTimezone" = JUndefined
       ∨ get_opt (optionsOf ctx) "useWorkflowTimezone" = JBool true →
       lookup_field "submittedAt" (json record) = toISO L (timezone ctx) (now ctx))
    ∧ (get_opt (optionsOf ctx) "useWorkflowTimezone" = JBool false →
       lookup_field "submittedAt" (json record) = toISO L "UTC" (now ctx))
    ∧ (mode ctx = "manual" → lookup_field "formMode" (json record) = JStr "test")
    ∧ (mode ctx ≠ "manual" → lookup_field "formMode" (json record) = JStr "production")
    ∧ (∀ req st' wd',
         outcome (webhook L (withRequest ctx req)) = Returns (WebhookResponse st' wd') →
         ∃ record',
           wd' = [[record']]
           ∧ lookup_field "submittedAt" (json record')
             = lookup_field "submittedAt" (json record)
           ∧ lookup_field "formMode" (json record')
             = lookup_field "formMode" (json record)).
Proof.
  intros Hrun.
  apply webhook_success_record in Hrun as (data & event & -> & ->).
  eexists. split; [reflexivity |]. simpl.
  split; [reflexivity |].
  split; [intros [-> | ->]; reflexivity |].
  split; [intros ->; reflexivity |].
  split; [intros ->; reflexivity |].
  split.
  { intros Hmode. apply String.eqb_neq in Hmode. rewrite Hmode. reflexivity. }
  intros req st' wd' Hrun'.
  apply webhook_success_record in Hrun' as (data' & event' & -> & ->).
  eexists. split; [reflexivity |]. simpl. split; reflexivity.
Qed.

(** C6, witness: Jo's submission, made from the editor. *)
Lemma C6_submission_stamp_witness :
  outcome (webhook Demo.libs Examples.jo_submits)
  = Returns (WebhookResponse 200 [[Examples.jo_record]])
  ∧ ∃ record, [[Examples.jo_record]] = [[record]]
              ∧ lookup_field "formMode" (json record) = JStr "test".
Proof.
  assert (H : outcome (webhook Demo.libs Examples.jo_submits)
              = Returns (WebhookResponse 200 [[Examples.jo_record]]))
    by (vm_compute; reflexivity).
  split; [exact H |].
  destruct (C6_submission_stamp _ _ _ _ H) as (record & Hwd & _ & _ & _ & Htest & _).
  exists record. split; [exact Hwd |]. apply Htest. reflexivity.
Defined.

(** C10. The record of a successful submission holds a formQueryParameters
    field if and only if the request has a query object with at least one
    key, and the field is then that object; with no query, or an empty one,
    the record has no such key. *)
Theorem C10_form_query_parameters (L : Libs) (ctx : Context) (st : Z)
        (wd : list (list INodeExecutionData)) :
  outcome (webhook L ctx) = Returns (WebhookResponse st wd) →
  ∃ record,
    wd = [[record]]
    ∧ (has_key "formQueryParameters" (json record) = true
       ↔ ∃ q, query (request ctx) = Some q ∧ q ≠ [])
    ∧ (∀ q, query (request ctx) = Some q → q ≠ [] →
            lookup_field "formQueryParameters" (json record) = JObj q)
    ∧ (query (request ctx) = None ∨ query (request ctx) = Some [] →
       has_key "formQueryParameters" (json record) = false).
Proof.
  intros Hrun.
  apply webhook_success_record in Hrun as (data & event & -> & ->).
  eexists. split; [reflexivity |]. simpl.
  destruct (query (request ctx)) as [[|kv q]|]; simpl.
  - split; [split; [discriminate | intros (q & Hq & Hne); congruence] |].
    split; [intros q Hq Hne; congruence | reflexivity].
  - split; [split; [intros _; eexists; split; [reflexivity | discriminate] | reflexivity] |].
    split; [intros q' Hq _; congruence |].
    intros [H | H]; discriminate.
  - split; [split; [discriminate | intros (q & Hq & _); discriminate] |].
    split; [intros q Hq; discriminate | reflexivity].
Qed.

(** C10, witness: Jo's submission carries the query of the form URL. *)
Lemma C10_form_query_parameters_witness :
  outcome (webhook Demo.libs Examples.jo_submits)
  = Returns (WebhookResponse 200 [[Examples.jo_record]])
  ∧ ∃ record, [[Examples.jo_record]] = [[record]]
              ∧ has_key "formQueryParameters" (json record) = true.
Proof.
  assert (H : outcome (webhook Demo.libs Examples.jo_submits)
              = Returns (WebhookResponse 200 [[Examples.jo_record]]))
    by (vm_compute; reflexivity).
  split; [exact H |].
  destruct (C10_form_query_parameters _ _ _ _ H) as (record & Hwd & Hiff & _).
  exists record. split; [exact Hwd |]. apply Hiff.
  eexists. split; [reflexivity | discriminate].
Defined.

(** The POST branch on a request whose body and schemas are well formed. *)
Lemma handleSubmission_run (L : Libs) (ctx : Context)
      (payload schema schemaJson : JsVal) (validateData : JsVal → AjvResult)
      (ev : option AjvResult) :
  JSON_parse L (body (request ctx)) = Some payload →
  is_nullish payload = false →
  nodeParameters ctx !! "jsonSchema" = Some schema →
  JSON_parse L (to_str L schema) = Some schemaJson →
  ajv_compile L schemaJson = Some validateData →
  is_nullish (optionsOf ctx) = false →
  EventCheck L ctx payload ev →
  let checked := validateData (get_opt payload "data") in
  ∃ t, no_event is_response_write t ∧
       handleSubmission L ctx (optionsOf ctx) =
       if negb (av_valid checked)
       then (t ++ validationFailure L "Data validation failed" (av_errors checked),
             Returns NoWebhookResponse)
       else match ev with
            | Some eventChecked =>
                if negb (av_valid eventChecked)
                then (t ++ validationFailure L "Event validation failed"
                             (av_errors eventChecked),
                      Returns NoWebhookResponse)
                else (t, outcome (emitSubmission L ctx (optionsOf ctx)
                                    (av_data checked) (av_data eventChecked)))
            | None =>
                (t, outcome (emitSubmission L ctx (optionsOf ctx)
                               (av_data checked) (get_opt payload "event")))
            end.
Proof.
  intros Hbody Hpayload Hschema Hparse Hcompile Hopt Hev checked.
  pose proof (emitSubmission_run L ctx (optionsOf ctx)) as Hemit.
  unfold handleSubmission, JSON_parse_m, ajv_compile_m, ajv_validate_m,
    getNodeParameter, bind, ret, throw, emit.
  simpl. rewrite Hbody. simpl. rewrite Hschema. simpl.
  rewrite Hparse. simpl. rewrite Hcompile. simpl.
  rewrite (get_prop_non_nullish _ "data" Hpayload). unfold ret. simpl. fold checked.
  set (t0 := [EvJsonParse (body (request ctx)); EvJsonParse (to_str L schema);
              EvAjvCompile schemaJson; EvAjvValidate (get_opt payload "data")]).
  destruct (av_valid checked); simpl.
  2:{ exists t0. split; [repeat constructor | reflexivity]. }
  rewrite (get_prop_non_nullish _ "eventJsonSchema" Hopt). unfold ret. simpl.
  destruct Hev as [Hnone | eventSchemaJson validateEvent Hsome Heparse Hecompile].
  - rewrite Hnone. rewrite (get_prop_non_nullish _ "event" Hpayload). unfold ret. simpl.
    rewrite (Hemit _ _ Hopt). simpl.
    exists t0. split; [repeat constructor | reflexivity].
  - rewrite Hsome. simpl. rewrite Heparse. simpl. rewrite Hecompile. simpl.
    rewrite (get_prop_non_nullish _ "event" Hpayload). unfold ret. simpl.
    exists (t0 ++ [EvJsonParse (to_str L (get_opt (optionsOf ctx) "eventJsonSchema"));
                   EvAjvCompile eventSchemaJson;
                   EvAjvValidate (get_opt payload "event")]).
    split; [repeat constructor |].
    destruct (av_valid (validateEvent _)); simpl.
    + rewrite (Hemit _ _ Hopt). reflexivity.
    + reflexivity.
Qed.

Lemma serveRequest_post (L : Libs) (ctx : Context) (options : JsVal) :
  outcome (validateResponseModeConfiguration ctx) = Returns tt →
  method (request ctx) = "POST" →
  serveRequest L ctx options =
  (EvGetChildNodes :: trace (handleSubmission L ctx options),
   outcome (handleSubmission L ctx options)).
Proof.
  intros Hmode Hpost. unfold serveRequest.
  rewrite (bind_run _ _ _ Hmode), validateResponseModeConfiguration_trace, Hpost.
  reflexivity.
Qed.

(** C2 (as amended). A POST request that passes authentication and
    response-mode validation, whose body parses to a payload with data
    field P and whose schemas compile, is answered as follows. If the
    validator accepts P (and accepts the event field when an event schema is
    configured), the handler responds 200 and emits exactly one workflow
    record, whose data field is P as the validator left it: P with the
    defaults of the schema written in, hence P itself when validation
    changed nothing. Otherwise it responds 400 with the JSON body
    [{ message, errors }], where [errors] is what the validator reported
    (a non-empty list, given that ajv reports an error for every candidate it
    rejects), and emits no workflow data. *)
Theorem C2_submission_validation (L : Libs) (ctx : Context)
        (payload schema schemaJson : JsVal) (validateData : JsVal → AjvResult)
        (ev : option AjvResult) :
  outcome (authenticate L ctx (optionsOf ctx)) = Returns None →
  outcome (validateResponseModeConfiguration ctx) = Returns tt →
  method (request ctx) = "POST" →
  JSON_parse L (body (request ctx)) = Some payload →
  is_nullish payload = false →
  nodeParameters ctx !! "jsonSchema" = Some schema →
  JSON_parse L (to_str L schema) = Some schemaJson →
  ajv_compile L schemaJson = Some validateData →
  EventCheck L ctx payload ev →
  let P := get_opt payload "data" in
  let checked := validateData P in
  let satisfied := av_valid checked && from_option av_valid true ev in
  (satisfied = true →
   ∃ record,
     outcome (webhook L ctx) = Returns (WebhookResponse 200 [[record]])
     ∧ lookup_field "data" (json record) = av_data checked
     ∧ (av_data checked = P → lookup_field "data" (json record) = P)
     ∧ no_event is_response_write (trace (webhook L ctx)))
  ∧ (satisfied = false →
     ∃ message errors,
       outcome (webhook L ctx) = Returns NoWebhookResponse
       ∧ http_status (trace (webhook L ctx)) = Some 400
       ∧ http_body (trace (webhook L ctx))
         = Some (Some (JSON_stringify L
                         (JObj [("message", JStr message); ("errors", errors)])))
       ∧ (errors = av_errors checked ∨ ∃ r, ev = Some r ∧ errors = av_errors r)
       ∧ (ajvReportsErrors L → ∃ e es, errors = JArr (e :: es))).
Proof.
  intros Hauth Hmode Hpost Hbody Hpayload Hschema Hparse Hcompile Hev P checked satisfied.
  pose proof (authenticate_pass _ _ _ Hauth) as [Hopt Hlook].
  apply credential_lookups_only in Hlook as [_ Hquiet].
  destruct (handleSubmission_run L ctx payload schema schemaJson validateData ev
              Hbody Hpayload Hschema Hparse Hcompile Hopt Hev) as (t & Ht & Hrun).
  fold P checked in Hrun.
  rewrite (webhook_pass _ _ Hauth), (serveRequest_post _ _ _ Hmode Hpost), Hrun.
  pose proof (emitSubmission_run L ctx (optionsOf ctx)) as Hemit.
  assert (Hfail : ∀ message errors,
    http_status (trace (authenticate L ctx (optionsOf ctx))
                 ++ EvGetChildNodes :: t ++ validationFailure L message errors) = Some 400
    ∧ http_body (trace (authenticate L ctx (optionsOf ctx))
                 ++ EvGetChildNodes :: t ++ validationFailure L message errors)
      = Some (Some (JSON_stringify L
                      (JObj [("message", JStr message); ("errors", errors)])))).
  { intros message errors.
    rewrite (http_status_app _ _ Hquiet), (http_body_app _ _ Hquiet). simpl.
    rewrite (http_status_app _ _ Ht), (http_body_app _ _ Ht). split; reflexivity. }
  assert (Hsilent : no_event is_response_write
                      (trace (authenticate L ctx (optionsOf ctx)) ++ EvGetChildNodes :: t)).
  { apply no_event_app. split; [exact Hquiet | constructor; [reflexivity | exact Ht]]. }
  unfold satisfied. clear satisfied.
  destruct (av_valid checked) eqn:Evalid; simpl.
  - destruct Hev as [Hnone | eventSchemaJson validateEvent Hsome Heparse Hecompile]; simpl.
    + split; [intros _ | discriminate].
      rewrite (Hemit _ _ Hopt). simpl.
      eexists. split; [reflexivity |]. simpl. split; [reflexivity |].
      split; [intros H; exact H | exact Hsilent].
    + destruct (av_valid (validateEvent _)) eqn:Eevent; simpl.
      * split; [intros _ | discriminate].
        rewrite (Hemit _ _ Hopt). simpl.
        eexists. split; [reflexivity |]. simpl. split; [reflexivity |].
        split; [intros H; exact H | exact Hsilent].
      * split; [discriminate | intros _].
        exists "Event validation failed", (av_errors (validateEvent (get_opt payload "event"))).
        simpl. destruct (Hfail "Event validation failed"
                           (av_errors (validateEvent (get_opt payload "event")))) as [H1 H2].
        split; [reflexivity |]. split; [exact H1 |]. split; [exact H2 |].
        split; [right; eauto |].
        intros Hajv. exact (Hajv _ _ _ Hecompile Eevent).
  - split; [discriminate | intros _].
    exists "Data validation failed", (av_errors checked).
    simpl. destruct (Hfail "Data validation failed" (av_errors checked)) as [H1 H2].
    split; [reflexivity |]. split; [exact H1 |]. split; [exact H2 |].
    split; [left; reflexivity |].
    intros Hajv. exact (Hajv _ _ _ Hcompile Evalid).
Qed.

(** C2, witness: Jo's submission satisfies the default schema and is handed
    to the workflow unchanged. *)
Lemma C2_submission_validation_witness :
  av_valid (Demo.validate Demo.contact_schema Demo.jo) = true
  ∧ ∃ record,
      outcome (webhook Demo.libs Examples.jo_submits)
      = Returns (WebhookResponse 200 [[record]])
      ∧ lookup_field "data" (json record) = Demo.jo.
Proof.
  split; [vm_compute; reflexivity |].
  destruct (C2_submission_validation Demo.libs Examples.jo_submits
              (JObj [("data", Demo.jo)]) (JStr Demo.contact_schema_text)
              Demo.contact_schema (Demo.validate Demo.contact_schema) None)
    as [Hok _]; try (vm_compute; reflexivity).
  { constructor. vm_compute; reflexivity. }
  destruct Hok as (record & Hrun & Hdata & _); [vm_compute; reflexivity |].
  exists record. split; [exact Hrun |]. rewrite Hdata. vm_compute; reflexivity.
Defined.

(** C2 as stated fails: the form's schema gives the property [name] a
    default and the client submits the empty object. The validator, created
    with [useDefaults], accepts it and writes the default into it; the one
    record emitted holds the completed object, not the payload's data field
    as submitted. *)
Lemma C2_emitted_data_differs_from_payload :
  JSON_parse Demo.libs (body (request Examples.defaulted_form))
  = Some (JObj [("data", JObj [])])
  ∧ av_valid (Demo.validate Demo.default_schema (JObj [])) = true
  ∧ ∃ record,
      outcome (webhook Demo.libs Examples.defaulted_form)
      = Returns (WebhookResponse 200 [[record]])
      ∧ lookup_field "data" (json record) = JObj [("name", JStr "anonymous")]
      ∧ lookup_field "data" (json record) ≠ JObj [].
Proof.
  split; [vm_compute; reflexivity |]. split; [vm_compute; reflexivity |].
  eexists. split; [vm_compute; reflexivity |].
  split; [reflexivity | discriminate].
Qed.

(** ** The form page *)

Lemma quiet_ret {A} (a : A) : quiet (ret a).
Proof. constructor. Qed.

Lemma quiet_throw {A} (e : Exn) : quiet (@throw A e).
Proof. constructor. Qed.

Lemma quiet_bind {A B} (m : M A) (k : A → M B) :
  quiet m → (∀ a, quiet (k a)) → quiet (bind m k).
Proof.
  unfold quiet. destruct m as [t [a|e]]; simpl; intros Hm Hk; [| exact Hm].
  specialize (Hk a). destruct (k a) as [t' r]. simpl in *.
  apply no_event_app. split; assumption.
Qed.

Lemma quiet_getNodeParameter (ctx : Context) (k : string) (d : option JsVal) :
  quiet (getNodeParameter ctx k d).
Proof.
  unfold getNodeParameter.
  destruct (nodeParameters ctx !! k); [apply quiet_ret |].
  destruct d; [apply quiet_ret | apply quiet_throw].
Qed.

Lemma quiet_get_prop (v : JsVal) (k : string) : quiet (get_prop v k).
Proof. unfold quiet. rewrite get_prop_trace. constructor. Qed.

Lemma quiet_getChildNodes (ctx : Context) : quiet (getChildNodes ctx).
Proof. repeat constructor. Qed.

Lemma quiet_stringify_escaped (L : Libs) (v : JsVal) : quiet (stringify_escaped L v).
Proof. unfold stringify_escaped. destruct (is_undefined v); constructor. Qed.

Lemma quiet_slot_attribute (L : Libs) (attr : string) (v : JsVal) :
  quiet (slot_attribute L attr v).
Proof.
  unfold slot_attribute. destruct (negb (is_nullish v)); [| apply quiet_ret].
  apply quiet_bind; [apply quiet_stringify_escaped | intros; apply quiet_ret].
Qed.

Lemma quiet_slot_option (L : Libs) (attr : string) (guard v : JsVal) :
  quiet (slot_option L attr guard v).
Proof.
  unfold slot_option. destruct (truthy guard); [| apply quiet_ret].
  apply quiet_bind; [apply quiet_stringify_escaped | intros; apply quiet_ret].
Qed.

Ltac quiet_atom :=
  first
    [ apply quiet_ret | apply quiet_throw | apply quiet_getNodeParameter
    | apply quiet_get_prop | apply quiet_getChildNodes
    | apply quiet_slot_attribute | apply quiet_slot_option ].

Ltac quiet_seq := apply quiet_bind; [solve [quiet_atom] | intros ?].

Lemma quiet_formPageLocals (L : Libs) (ctx : Context) : quiet (formPageLocals L ctx).
Proof.
  unfold formPageLocals.
  do 7 quiet_seq.
  apply quiet_bind.
  - destruct (truthy _).
    + do 2 quiet_seq.
      apply quiet_bind; [destruct (is_str _ "text"); quiet_atom | intros ?].
      quiet_seq.
      apply quiet_bind; [destruct (is_str _ "redirect"); quiet_atom | intros ?].
      quiet_atom.
    + quiet_seq. quiet_atom.
  - intros [formSubmittedText redirectUrl]. do 2 quiet_seq. quiet_atom.
Qed.

Lemma quiet_renderFormHtml (L : Libs) (p : FormPage) : quiet (renderFormHtml L p).
Proof. unfold renderFormHtml. repeat quiet_seq. quiet_atom. Qed.

Lemma quiet_generateFormHtml (L : Libs) (ctx : Context) : quiet (generateFormHtml L ctx).
Proof.
  unfold generateFormHtml.
  apply quiet_bind; [apply quiet_formPageLocals | intros; apply quiet_renderFormHtml].
Qed.

Lemma returns_ret {A} (a : A) : returns (ret a).
Proof. exists a. reflexivity. Qed.

Lemma returns_bind {A B} (m : M A) (k : A → M B) (a : A) :
  outcome m = Returns a → returns (k a) → returns (bind m k).
Proof.
  intros Hm [b Hb]. exists b. rewrite (bind_run _ _ _ Hm). exact Hb.
Qed.

Lemma truthy_not_nullish (v : JsVal) : truthy v = true → is_nullish v = false.
Proof. destruct v; simpl; congruence. Qed.

Lemma truthy_defined (v : JsVal) : truthy v = true → is_undefined v = false.
Proof. destruct v; simpl; congruence. Qed.

Lemma returns_slot_attribute (L : Libs) (attr : string) (v : JsVal) :
  returns (slot_attribute L attr v).
Proof.
  unfold slot_attribute, stringify_escaped.
  destruct v; simpl; eexists; reflexivity.
Qed.

Lemma returns_slot_option (L : Libs) (attr : string) (guard v : JsVal) :
  (truthy guard = true → is_undefined v = false) →
  returns (slot_option L attr guard v).
Proof.
  unfold slot_option, stringify_escaped. intros Hv.
  destruct (truthy guard); [| apply returns_ret].
  rewrite (Hv eq_refl). simpl. eexists; reflexivity.
Qed.

Lemma formPageLocals_returns (L : Libs) (ctx : Context) :
  pageConfigured L ctx →
  ∃ p, outcome (formPageLocals L ctx) = Returns p ∧ pg_options p = optionsOf ctx.
Proof.
  intros ([schema Hschema] & [uischema Huischema] & [data Hdata] & [config Hconfig]
          & Hopt & Hvalues & _).
  unfold formPageLocals.
  rewrite (getNodeParameter_set _ _ _ _ Hschema), bind_ret_l.
  rewrite (getNodeParameter_set _ _ _ _ Huischema), bind_ret_l.
  rewrite (getNodeParameter_set _ _ _ _ Hdata), bind_ret_l.
  rewrite (getNodeParameter_set _ _ _ _ Hconfig), bind_ret_l.
  rewrite !getNodeParameter_fallback, !bind_ret_l. fold (optionsOf ctx).
  rewrite (get_prop_non_nullish _ "respondWithOptions" Hopt), bind_ret_l.
  assert (Hselected : returns
    (if truthy (get_opt (optionsOf ctx) "respondWithOptions")
     then
       bind (get_prop (get_opt (optionsOf ctx) "respondWithOptions") "values") (λ values,
       bind (get_prop values "respondWith") (λ respondWith,
       bind (if is_str respondWith "text" then get_prop values "formSubmittedText"
             else ret JUndefined) (λ formSubmittedText,
       bind (get_prop values "respondWith") (λ respondWith0,
       bind (if is_str respondWith0 "redirect" then get_prop values "redirectUrl"
             else ret JUndefined) (λ redirectUrl,
       ret (formSubmittedText, redirectUrl))))))
     else
       bind (get_prop (optionsOf ctx) "formSubmittedText") (λ formSubmittedText,
       ret (formSubmittedText, JUndefined)))).
  { destruct (truthy (get_opt (optionsOf ctx) "respondWithOptions")) eqn:Hrwo.
    - specialize (Hvalues eq_refl). apply truthy_not_nullish in Hrwo.
      rewrite (get_prop_non_nullish _ "values" Hrwo), bind_ret_l.
      rewrite !(get_prop_non_nullish _ "respondWith" Hvalues), bind_ret_l.
      rewrite (get_prop_non_nullish _ "formSubmittedText" Hvalues).
      rewrite (get_prop_non_nullish _ "redirectUrl" Hvalues).
      destruct (is_str _ "text"); rewrite bind_ret_l, bind_ret_l;
        destruct (is_str _ "redirect"); rewrite bind_ret_l; apply returns_ret.
    - rewrite (get_prop_non_nullish _ "formSubmittedText" Hopt), bind_ret_l.
      apply returns_ret. }
  destruct Hselected as [[formSubmittedText redirectUrl] Hselected].
  rewrite (bind_run _ _ _ Hselected). cbv beta iota.
  rewrite (get_prop_non_nullish _ "customCss" Hopt).
  eexists. split; reflexivity.
Qed.

Lemma renderFormHtml_returns (L : Libs) (p : FormPage) :
  is_nullish (pg_options p) = false →
  (truthy (get_opt (pg_options p) "customStyle") = true →
   is_undefined (sanitizeCustomCss L (get_opt (pg_options p) "customStyle")) = false) →
  returns (renderFormHtml L p).
Proof.
  intros Hopt Hstyle. unfold renderFormHtml.
  destruct (returns_slot_attribute L "data" (pg_data p)) as [s1 H1].
  eapply returns_bind; [exact H1 |].
  destruct (returns_slot_attribute L "schema" (pg_schema p)) as [s2 H2].
  eapply returns_bind; [exact H2 |].
  destruct (returns_slot_attribute L "uischema" (pg_uischema p)) as [s3 H3].
  eapply returns_bind; [exact H3 |].
  destruct (returns_slot_attribute L "config" (pg_config p)) as [s4 H4].
  eapply returns_bind; [exact H4 |].
  rewrite (get_prop_non_nullish _ "vuetifyOptions" Hopt), bind_ret_l.
  destruct (returns_slot_option L "vuetify-options"
              (get_opt (pg_options p) "vuetifyOptions")
              (get_opt (pg_options p) "vuetifyOptions") (truthy_defined _)) as [s5 H5].
  eapply returns_bind; [exact H5 |].
  rewrite (get_prop_non_nullish _ "customStyle" Hopt), bind_ret_l.
  destruct (returns_slot_option L "custom-style" _ _ Hstyle) as [s6 H6].
  eapply returns_bind; [exact H6 |].
  rewrite (get_prop_non_nullish _ "validationMode" Hopt), bind_ret_l.
  destruct (returns_slot_option L "validation-mode"
              (get_opt (pg_options p) "validationMode")
              (get_opt (pg_options p) "validationMode") (truthy_defined _)) as [s7 H7].
  eapply returns_bind; [exact H7 |].
  rewrite (get_prop_non_nullish _ "readonly" Hopt), bind_ret_l.
  apply returns_ret.
Qed.

(** A well-configured node gets its page. *)
Lemma generateFormHtml_returns (L : Libs) (ctx : Context) :
  pageConfigured L ctx → returns (generateFormHtml L ctx).
Proof.
  intros Hcfg.
  destruct (formPageLocals_returns L ctx Hcfg) as (p & Hlocals & Hoptions).
  destruct Hcfg as (_ & _ & _ & _ & Hopt & _ & Hstyle).
  unfold generateFormHtml. eapply returns_bind; [exact Hlocals |].
  apply renderFormHtml_returns; rewrite Hoptions; assumption.
Qed.

(** The layout of a generated page around its first slots. *)
Lemma generateFormHtml_layout (L : Libs) (ctx : Context) (html : string) :
  outcome (generateFormHtml L ctx) = Returns html →
  ∃ p rest,
    outcome (formPageLocals L ctx) = Returns p
    ∧ html = tpl_head +:+ slot_customCss L p
             +:+ tpl_body_open +:+ slot_submittedText L p
             +:+ tpl_card_close +:+ slot_redirectUrl L p
             +:+ tpl_use_response_data +:+ slot_useResponseData p
             +:+ tpl_script +:+ rest.
Proof.
  unfold generateFormHtml. intros Hrun. bind_inv Hrun.
  exists x. unfold renderFormHtml in Hrun. repeat bind_inv Hrun.
  inversion Hrun. eexists. split; [assumption | reflexivity].
Qed.

Tactic Notation "bind_inv" hyp(H) "as" ident(a) ident(Ha) :=
  apply outcome_bind_inv in H as (a & Ha & H); cbv beta in H.

Lemma getNodeParameter_fallback_inv (ctx : Context) (k : string) (d v : JsVal) :
  outcome (getNodeParameter ctx k (Some d)) = Returns v → v = parameterOr ctx k d.
Proof. rewrite getNodeParameter_fallback. simpl. congruence. Qed.

(** The text and the URL selected by the options, before the defaults. *)
Lemma formPageLocals_inv (L : Libs) (ctx : Context) (p : FormPage) :
  outcome (formPageLocals L ctx) = Returns p →
  let options := optionsOf ctx in
  let respondWithOptions := get_opt options "respondWithOptions" in
  let values := get_opt respondWithOptions "values" in
  let selectedText :=
    if truthy respondWithOptions
    then (if is_str (get_opt values "respondWith") "text"
          then get_opt values "formSubmittedText" else JUndefined)
    else get_opt options "formSubmittedText" in
  let selectedUrl :=
    if truthy respondWithOptions
    then (if is_str (get_opt values "respondWith") "redirect"
          then get_opt values "redirectUrl" else JUndefined)
    else JUndefined in
  let hasNextPage := isFormConnected L (childNodes ctx) in
  pg_formSubmittedText p
  = (if is_undefined selectedText then JStr DEFAULT_SUBMITTED_TEXT else selectedText)
  ∧ pg_redirectUrl p = (if hasNextPage then JUndefined else selectedUrl)
  ∧ pg_responseMode p
    = (if hasNextPage then JStr "responseNode" else parameterOr ctx "responseMode" (JStr ""))
  ∧ pg_useResponseData p = is_str (pg_responseMode p) "responseNode".
Proof.
  intros Hrun. unfold formPageLocals in Hrun.
  bind_inv Hrun as schema Hschema. bind_inv Hrun as uischema Huischema.
  bind_inv Hrun as data Hdata. bind_inv Hrun as config Hconfig.
  bind_inv Hrun as responseMode HresponseMode.
  apply getNodeParameter_fallback_inv in HresponseMode as ->.
  bind_inv Hrun as options Hoptions.
  apply getNodeParameter_fallback_inv in Hoptions as ->. fold (optionsOf ctx) in *.
  bind_inv Hrun as rwo Hrwo. apply get_prop_returns in Hrwo as [Hopt ->].
  bind_inv Hrun as selected Hselected.
  assert (Hsel : selected =
    (if truthy (get_opt (optionsOf ctx) "respondWithOptions")
     then (if is_str (get_opt (get_opt (get_opt (optionsOf ctx) "respondWithOptions")
                                 "values") "respondWith") "text"
           then get_opt (get_opt (get_opt (optionsOf ctx) "respondWithOptions") "values")
                        "formSubmittedText"
           else JUndefined)
     else get_opt (optionsOf ctx) "formSubmittedText",
     if truthy (get_opt (optionsOf ctx) "respondWithOptions")
     then (if is_str (get_opt (get_opt (get_opt (optionsOf ctx) "respondWithOptions")
                                 "values") "respondWith") "redirect"
           then get_opt (get_opt (get_opt (optionsOf ctx) "respondWithOptions") "values")
                        "redirectUrl"
           else JUndefined)
     else JUndefined)).
  { destruct (truthy (get_opt (optionsOf ctx) "respondWithOptions")).
    - bind_inv Hselected as values Hvalues.
      apply get_prop_returns in Hvalues as [_ ->].
      bind_inv Hselected as respondWith HrespondWith.
      apply get_prop_returns in HrespondWith as [Hvals ->].
      bind_inv Hselected as text Htext.
      bind_inv Hselected as respondWith' HrespondWith'.
      apply get_prop_returns in HrespondWith' as [_ ->].
      bind_inv Hselected as url Hurl.
      simpl in Hselected. inversion Hselected; subst selected. clear Hselected.
      f_equal.
      + destruct (is_str _ "text");
          [apply get_prop_returns in Htext as [_ ->] | simpl in Htext; inversion Htext];
          reflexivity.
      + destruct (is_str _ "redirect");
          [apply get_prop_returns in Hurl as [_ ->] | simpl in Hurl; inversion Hurl];
          reflexivity.
    - bind_inv Hselected as text Htext.
      apply get_prop_returns in Htext as [_ ->].
      simpl in Hselected. inversion Hselected. reflexivity. }
  subst selected. cbv beta iota in Hrun.
  bind_inv Hrun as connectedNodes Hnodes.
  simpl in Hnodes. inversion Hnodes; subst connectedNodes. clear Hnodes.
  bind_inv Hrun as customCss HcustomCss.
  simpl in Hrun. inversion Hrun; subst p. simpl.
  repeat split; reflexivity.
Qed.

Lemma is_undefined_false (v : JsVal) : is_undefined v = false ↔ v ≠ JUndefined.
Proof. destruct v; simpl; split; congruence. Qed.

(** C7 (as amended). The generated page shows the default submitted
    message, Your response has been recorded, exactly when the configuration
    selects no form-submitted text of its own; a selected text replaces it.
    A configured redirect URL does not suppress the default: response
    options that ask for a redirect select no text, so the page carries the
    default message. *)
Theorem C7_default_submitted_text (L : Libs) (ctx : Context) :
  (pageConfigured L ctx → returns (generateFormHtml L ctx))
  ∧ ∀ html,
      outcome (generateFormHtml L ctx) = Returns html →
      ∃ p rest,
        html = tpl_head +:+ slot_customCss L p
               +:+ tpl_body_open +:+ slot_submittedText L p +:+ rest
        ∧ (∀ text, CustomTextSelected (optionsOf ctx) text →
                   pg_formSubmittedText p = text)
        ∧ ((∀ text, ¬ CustomTextSelected (optionsOf ctx) text) →
           pg_formSubmittedText p = JStr DEFAULT_SUBMITTED_TEXT
           ∧ slot_submittedText L p = submittedParagraph DEFAULT_SUBMITTED_TEXT)
        ∧ (∀ url, redirectConfigured (optionsOf ctx) url →
                  pg_formSubmittedText p = JStr DEFAULT_SUBMITTED_TEXT).
Proof.
  split; [apply generateFormHtml_returns |].
  intros html Hrun.
  apply generateFormHtml_layout in Hrun as (p & rest & Hlocals & ->).
  exists p. eexists. split; [reflexivity |].
  apply formPageLocals_inv in Hlocals as (Htext & _). cbv zeta in Htext.
  split; [| split].
  - intros text [Hrwo Hwith Hval Hdef | Hrwo Hval Hdef];
      rewrite Htext, Hrwo; [rewrite Hwith; simpl |];
      rewrite Hval; apply is_undefined_false in Hdef; rewrite Hdef; reflexivity.
  - intros Hnone.
    assert (Hdefault : pg_formSubmittedText p = JStr DEFAULT_SUBMITTED_TEXT).
    { rewrite Htext. clear Htext.
      destruct (truthy (get_opt (optionsOf ctx) "respondWithOptions")) eqn:Hrwo.
      - destruct (is_str _ "text") eqn:Hwith; [| reflexivity].
        destruct (is_undefined _) eqn:Hdef; [reflexivity |].
        exfalso. apply is_str_true in Hwith. apply is_undefined_false in Hdef.
        exact (Hnone _ (text_of_response_options _ _ Hrwo Hwith eq_refl Hdef)).
      - destruct (is_undefined _) eqn:Hdef; [reflexivity |].
        exfalso. apply is_undefined_false in Hdef.
        exact (Hnone _ (text_of_options _ _ Hrwo eq_refl Hdef)). }
    split; [exact Hdefault |].
    unfold slot_submittedText. rewrite Hdefault. reflexivity.
  - intros url (Hrwo & Hwith & _). rewrite Htext, Hrwo, Hwith. reflexivity.
Qed.

(** C7, witness: the open form has no text of its own and shows the
    default message. *)
Lemma C7_default_submitted_text_witness :
  pageConfigured Demo.libs Examples.first_visit
  ∧ ∃ html p rest,
      outcome (generateFormHtml Demo.libs Examples.first_visit) = Returns html
      ∧ html = tpl_head +:+ slot_customCss Demo.libs p
               +:+ tpl_body_open +:+ slot_submittedText Demo.libs p +:+ rest
      ∧ pg_formSubmittedText p = JStr DEFAULT_SUBMITTED_TEXT.
Proof.
  assert (Hcfg : pageConfigured Demo.libs Examples.first_visit).
  { repeat split; try (eexists; vm_compute; reflexivity);
      try (vm_compute; reflexivity); vm_compute; discriminate. }
  split; [exact Hcfg |].
  destruct (C7_default_submitted_text Demo.libs Examples.first_visit) as [Hreturns Hpage].
  destruct (Hreturns Hcfg) as [html Hrun].
  destruct (Hpage html Hrun) as (p & rest & Hlayout & _ & Hdefault & _).
  exists html, p, rest. split; [exact Hrun |]. split; [exact Hlayout |].
  apply Hdefault. intros text [Hrwo _ _ _ | _ Hval Hdef].
  - vm_compute in Hrwo. discriminate.
  - apply Hdef. rewrite <- Hval. vm_compute. reflexivity.
Defined.

(** C7 as stated fails: the response options of this form ask for a
    redirect to a URL, and the page generated for it holds the redirect link
    together with the default submitted message. *)
Lemma C7_redirect_keeps_default_text :
  redirectConfigured (optionsOf Examples.redirecting_form)
                     (JStr "https://example.com/thanks")
  ∧ ∃ html,
      outcome (generateFormHtml Demo.libs Examples.redirecting_form) = Returns html
      ∧ contains "<a id='redirectUrl' href='https://example.com/thanks'" html = true
      ∧ contains (submittedParagraph DEFAULT_SUBMITTED_TEXT) html = true.
Proof.
  split; [repeat split; vm_compute; reflexivity |].
  eexists. split; [vm_compute; reflexivity |].
  split; vm_compute; reflexivity.
Qed.

Lemma isFormConnected_spec (L : Libs) (ctx : Context) :
  isFormConnected L (childNodes ctx) = true ↔ waitsForForm L ctx.
Proof.
  unfold isFormConnected, waitsForForm. rewrite existsb_exists.
  split; intros (n & Hin & Hn); exists n; (split; [exact Hin |]).
  - apply orb_true_iff in Hn as [Hn | Hn].
    + left. apply String.eqb_eq. exact Hn.
    + apply andb_true_iff in Hn as [Ht Hr].
      right. split; [apply String.eqb_eq; exact Ht | apply is_str_true; exact Hr].
  - apply orb_true_iff. destruct Hn as [Hn | [Ht Hr]].
    + left. apply String.eqb_eq. exact Hn.
    + right. apply andb_true_iff.
      split; [apply String.eqb_eq; exact Ht | apply is_str_true; exact Hr].
Qed.

(** C9. When a wait-for-form condition is detected downstream (a
    form-continuation node, or a wait node whose resume parameter is form),
    the generated page uses response mode responseNode (its useResponseData
    input holds true) and has no redirect link, whatever redirect URL is
    configured. *)
Theorem C9_wait_for_form (L : Libs) (ctx : Context) :
  waitsForForm L ctx →
  (pageConfigured L ctx → returns (generateFormHtml L ctx))
  ∧ ∀ html,
      outcome (generateFormHtml L ctx) = Returns html →
      ∃ p rest,
        html = tpl_head +:+ slot_customCss L p
               +:+ tpl_body_open +:+ slot_submittedText L p
               +:+ tpl_card_close +:+ slot_redirectUrl L p
               +:+ tpl_use_response_data +:+ slot_useResponseData p
               +:+ tpl_script +:+ rest
        ∧ pg_responseMode p = JStr "responseNode"
        ∧ slot_useResponseData p = "true"
        ∧ pg_redirectUrl p = JUndefined
        ∧ slot_redirectUrl L p = "".
Proof.
  intros Hwait. split; [apply generateFormHtml_returns |].
  intros html Hrun. apply isFormConnected_spec in Hwait.
  apply generateFormHtml_layout in Hrun as (p & rest & Hlocals & ->).
  exists p, rest. split; [reflexivity |].
  apply formPageLocals_inv in Hlocals as (_ & Hurl & Hmode & Huse). cbv zeta in *.
  rewrite Hwait in *.
  unfold slot_useResponseData, slot_redirectUrl.
  rewrite Huse, Hmode, Hurl. repeat split; reflexivity.
Qed.

(** C9, witness: a form with a redirect configured and a wait node that
    resumes on a form downstream. *)
Lemma C9_wait_for_form_witness :
  waitsForForm Demo.libs Examples.redirecting_form_with_wait
  ∧ redirectConfigured (optionsOf Examples.redirecting_form_with_wait)
                       (JStr "https://example.com/thanks")
  ∧ ∃ html p,
      outcome (generateFormHtml Demo.libs Examples.redirecting_form_with_wait)
      = Returns html
      ∧ pg_responseMode p = JStr "responseNode"
      ∧ slot_redirectUrl Demo.libs p = "".
Proof.
  assert (Hwait : waitsForForm Demo.libs Examples.redirecting_form_with_wait).
  { exists Examples.wait_node. split; [left; reflexivity |].
    right. split; reflexivity. }
  assert (Hcfg : pageConfigured Demo.libs Examples.redirecting_form_with_wait).
  { repeat split; try (eexists; vm_compute; reflexivity);
      try (vm_compute; reflexivity); vm_compute; discriminate. }
  split; [exact Hwait |].
  split; [repeat split; vm_compute; reflexivity |].
  destruct (C9_wait_for_form Demo.libs _ Hwait) as [Hreturns Hpage].
  destruct (Hreturns Hcfg) as [html Hrun].
  destruct (Hpage html Hrun) as (p & rest & _ & Hmode & _ & _ & Hslot).
  exists html, p. split; [exact Hrun |]. split; [exact Hmode | exact Hslot].
Defined.

(** A gate that ends in an exception wrote nothing on the response. *)
Lemma authenticate_throws (L : Libs) (ctx : Context) (options : JsVal) (e : Exn) :
  outcome (authenticate L ctx options) = Throws e →
  no_event is_response_write (trace (authenticate L ctx options)).
Proof.
  intros Hrun.
  destruct (is_nullish options) eqn:Hopt.
  { destruct options; try discriminate; constructor. }
  destruct (truthy (get_opt options "ignoreBots")
            && isbot L (headers (request ctx) !! "user-agent")) eqn:Hbot.
  - rewrite (authenticate_bot _ _ _ Hopt Hbot) in Hrun. discriminate.
  - rewrite (authenticate_run _ _ _ Hopt Hbot) in *.
    pose proof (validateWebhookAuthentication_trace L ctx
                  FORM_TRIGGER_AUTHENTICATION_PROPERTY) as Htr.
    apply credential_lookups_only in Htr as [_ Htr].
    destruct (outcome (validateWebhookAuthentication L ctx _)) as [v|[]];
      simpl in *; try discriminate; exact Htr.
Qed.

(** A page served with status 200 is the document [generateFormHtml]
    returned for that context. *)
Lemma servedPage_generated (L : Libs) (ctx : Context) (html : string) :
  servedPage L ctx html → outcome (generateFormHtml L ctx) = Returns html.
Proof.
  intros (Hget & Hstatus & Hbody).
  destruct (outcome (authenticate L ctx (optionsOf ctx))) as [[r|]|e] eqn:Hauth.
  - exfalso. rewrite (webhook_answered _ _ _ Hauth) in Hstatus.
    apply authenticate_answered in Hauth as (_ & t & Htrace & Hlook).
    apply credential_lookups_only in Hlook as [_ Hquiet].
    simpl in Hstatus. rewrite Htrace, (http_status_app _ _ Hquiet) in Hstatus.
    discriminate.
  - rewrite (webhook_pass _ _ Hauth) in Hstatus, Hbody. simpl in Hstatus, Hbody.
    apply authenticate_pass in Hauth as [_ Hlook].
    apply credential_lookups_only in Hlook as [_ Hquiet].
    rewrite (http_status_app _ _ Hquiet) in Hstatus.
    rewrite (http_body_app _ _ Hquiet) in Hbody.
    unfold serveRequest in Hstatus, Hbody. rewrite Hget in Hstatus, Hbody.
    change (String.eqb "GET" "GET") with true in Hstatus, Hbody. cbv iota in Hstatus, Hbody.
    destruct (outcome (validateResponseModeConfiguration ctx)) as [[]|e] eqn:Hmode.
    + rewrite (bind_run _ _ _ Hmode), validateResponseModeConfiguration_trace
        in Hstatus, Hbody.
      pose proof (quiet_generateFormHtml L ctx) as Hgen. unfold quiet in Hgen.
      destruct (outcome (generateFormHtml L ctx)) as [page|e] eqn:Hpage.
      * rewrite (bind_run _ _ _ Hpage) in Hbody. simpl in Hbody.
        rewrite (http_body_app _ _ Hgen) in Hbody. simpl in Hbody. congruence.
      * exfalso. rewrite (bind_throws _ _ _ Hpage) in Hstatus. simpl in Hstatus.
        rewrite <- (app_nil_r (trace (generateFormHtml L ctx))) in Hstatus.
        rewrite (http_status_app _ _ Hgen) in Hstatus. discriminate.
    + exfalso.
      rewrite (bind_throws _ _ _ Hmode), validateResponseModeConfiguration_trace in Hstatus.
      discriminate.
  - exfalso. rewrite webhook_unfold, (bind_throws _ _ _ Hauth) in Hstatus.
    apply authenticate_throws in Hauth. simpl in Hstatus.
    rewrite <- (app_nil_r (trace _)) in Hstatus.
    rewrite (http_status_app _ _ Hauth) in Hstatus. discriminate.
Qed.

(** C8. Form page generation is a function of the node configuration
    alone: two contexts with the same parameter values, options and
    downstream nodes yield the same run of [generateFormHtml], whatever the
    requests, the credential store, the clock and the execution mode are;
    and the documents served with status 200 for two GET requests under one
    configuration are identical. *)
Theorem C8_page_deterministic (L : Libs) (c1 c2 : Context) :
  sameNodeConfiguration c1 c2 →
  generateFormHtml L c1 = generateFormHtml L c2
  ∧ ∀ h1 h2, servedPage L c1 h1 → servedPage L c2 h2 → h1 = h2.
Proof.
  intros (Hparams & Hnode & Hchildren).
  assert (Hsame : generateFormHtml L c1 = generateFormHtml L c2).
  { unfold generateFormHtml, formPageLocals, getNodeParameter, getChildNodes.
    rewrite Hparams, Hchildren. reflexivity. }
  split; [exact Hsame |].
  intros h1 h2 H1 H2.
  apply servedPage_generated in H1, H2. rewrite Hsame in H1. congruence.
Qed.

(** C8, witness: the open form asked for by two clients, with different
    headers, query strings and credential stores. *)
Lemma C8_page_deterministic_witness :
  sameNodeConfiguration Examples.first_visit Examples.second_visit
  ∧ request Examples.first_visit ≠ request Examples.second_visit
  ∧ generateFormHtml Demo.libs Examples.first_visit
    = generateFormHtml Demo.libs Examples.second_visit.
Proof.
  assert (Hsame : sameNodeConfiguration Examples.first_visit Examples.second_visit)
    by (repeat split; reflexivity).
  split; [exact Hsame |]. split.
  - intros Heq. apply (f_equal query) in Heq. discriminate.
  - exact (proj1 (C8_page_deterministic Demo.libs _ _ Hsame)).
Defined.

(** ** Further properties of the authentication routine *)

(** X1. An authentication value other than none, basicAuth, bearerAuth,
    headerAuth and jwtAuth makes the routine return at once: every request
    is let through, and no credential is looked up. *)
Theorem unknown_authentication_mode_accepts (L : Libs) (ctx : Context) (v : JsVal) :
  nodeParameters ctx !! "authentication" = Some v →
  (∀ m, v ≠ JStr (authModeName m)) →
  validateWebhookAuthentication L ctx "authentication" = ([], Returns JUndefined).
Proof.
  intros Hset Hother. unfold validateWebhookAuthentication.
  rewrite (getNodeParameter_set _ _ _ _ Hset), bind_ret_l.
  pose proof (Hother AuthNone) as H0. pose proof (Hother BasicAuth) as H1.
  pose proof (Hother BearerAuth) as H2. pose proof (Hother HeaderAuth) as H3.
  pose proof (Hother JwtAuth) as H4.
  apply is_str_false in H0, H1, H2, H3, H4. simpl in *.
  rewrite H0, H1, H2, H3, H4. reflexivity.
Qed.

Lemma unknown_authentication_mode_accepts_witness :
  nodeParameters MoreExamples.unknown_mode !! "authentication" = Some (JStr "oauth2")
  ∧ validateWebhookAuthentication Demo.libs MoreExamples.unknown_mode "authentication"
    = ([], Returns JUndefined).
Proof.
  split; [vm_compute; reflexivity |].
  apply (unknown_authentication_mode_accepts Demo.libs MoreExamples.unknown_mode
           (JStr "oauth2")); [vm_compute; reflexivity |].
  intros [] H; discriminate.
Defined.

(** X2. The routine looks up the credential of the selected mode and no
    other, exactly once, whatever the request holds and however the check
    ends; under none it looks up nothing. *)
Theorem only_selected_credential_looked_up (L : Libs) (ctx : Context) (m : AuthMode) :
  nodeParameters ctx !! "authentication" = Some (JStr (authModeName m)) →
  trace (validateWebhookAuthentication L ctx "authentication")
  = match credentialNameOf m with
    | Some credential => [EvGetCredentials credential]
    | None => []
    end.
Proof.
  intros Hmode. unfold validateWebhookAuthentication.
  rewrite (getNodeParameter_set _ _ _ _ Hmode), bind_ret_l.
  destruct m; simpl; [reflexivity | | | |];
    unfold getCredentials, bind, ret, throw, emit; simpl;
    repeat (case_match; simpl; simplify_eq; try reflexivity).
Qed.

Lemma only_selected_credential_looked_up_witness :
  nodeParameters Examples.wrong_password !! "authentication" = Some (JStr "basicAuth")
  ∧ trace (validateWebhookAuthentication Demo.libs Examples.wrong_password "authentication")
    = [EvGetCredentials "httpBasicAuth"].
Proof.
  split; [vm_compute; reflexivity |].
  apply (only_selected_credential_looked_up Demo.libs Examples.wrong_password BasicAuth).
  vm_compute; reflexivity.
Defined.

(** X3. Under bearerAuth the routine raises 500 when no token is stored;
    with a token stored it returns exactly when the Authorization header is
    the word Bearer, one space and the token, character for character, and
    raises 403 otherwise, also when the header is absent. *)
Theorem bearer_auth_exact_header (L : Libs) (ctx : Context) :
  nodeParameters ctx !! "authentication" = Some (JStr "bearerAuth") →
  let run := outcome (validateWebhookAuthentication L ctx "authentication") in
  (storedBearerToken ctx = None → verdict run = Rejected 500)
  ∧ ∀ token,
      storedBearerToken ctx = Some token →
      (headers (request ctx) !! "authorization" = Some ("Bearer " +:+ token) →
       run = Returns JUndefined)
      ∧ (headers (request ctx) !! "authorization" ≠ Some ("Bearer " +:+ token) →
         run = Throws (WebhookAuthorizationError 403 None)).
Proof.
  intros Hmode run. subst run. unfold validateWebhookAuthentication.
  rewrite (getNodeParameter_set _ _ _ _ Hmode), bind_ret_l. simpl.
  unfold storedBearerToken, getCredentials, cred_field, bind, ret, throw, emit; simpl.
  destruct (credentials ctx !! "httpBearerAuth") as [c|]; simpl.
  - destruct (c !! "token") as [[|a t]|]; simpl.
    + split; [reflexivity | discriminate].
    + split; [discriminate |]. intros token [= <-].
      case_bool_decide; simpl; split; intros; congruence.
    + split; [reflexivity | discriminate].
  - split; [reflexivity | discriminate].
Qed.

Lemma bearer_auth_exact_header_witness :
  nodeParameters (MoreExamples.bearer [("authorization", "bearer t0ken")])
    !! "authentication" = Some (JStr "bearerAuth")
  ∧ outcome (validateWebhookAuthentication Demo.libs
               (MoreExamples.bearer [("authorization", "bearer t0ken")]) "authentication")
    = Throws (WebhookAuthorizationError 403 None).
Proof.
  split; [vm_compute; reflexivity |].
  apply (bearer_auth_exact_header Demo.libs
           (MoreExamples.bearer [("authorization", "bearer t0ken")]))
    with (token := "t0ken"); vm_compute; [reflexivity | reflexivity | discriminate].
Defined.





(** X6. When the authentication parameter is not set, the host's error
    for the unreadable parameter leaves the handler as an exception: the
    request is not answered and nothing is written on the response. *)
Theorem unset_authentication_parameter_raises (L : Libs) (ctx : Context) :
  nodeParameters ctx !! "authentication" = None →
  is_nullish (optionsOf ctx) = false →
  botRejected L ctx = false →
  webhook L ctx
  = ([], Throws (RuntimeError "Could not get parameter authentication")).
Proof.
  intros Hunset Hopt Hbot.
  rewrite webhook_unfold, (authenticate_run _ _ _ Hopt Hbot).
  unfold validateWebhookAuthentication, FORM_TRIGGER_AUTHENTICATION_PROPERTY,
    getNodeParameter.
  rewrite Hunset. reflexivity.
Qed.

Lemma unset_authentication_parameter_raises_witness :
  nodeParameters MoreExamples.no_mode !! "authentication" = None
  ∧ outcome (webhook Demo.libs MoreExamples.no_mode)
    = Throws (RuntimeError "Could not get parameter authentication").
Proof.
  split; [vm_compute; reflexivity |].
  rewrite (unset_authentication_parameter_raises Demo.libs MoreExamples.no_mode);
    vm_compute; reflexivity.
Defined.

(** ** Further properties of the handler *)

Lemma is_response_write_challenge : Forall (λ ev, is_response_write ev = true) challenge.
Proof. repeat constructor. Qed.

(** X7. A request that passes authentication and response-mode validation
    with a method other than GET and POST is answered 405 with the text
    Method not allowed; its body is not parsed and nothing is handed to the
    workflow. *)
Theorem other_methods_answered_405 (L : Libs) (ctx : Context) :
  outcome (authenticate L ctx (optionsOf ctx)) = Returns None →
  outcome (validateResponseModeConfiguration ctx) = Returns tt →
  method (request ctx) ≠ "GET" →
  method (request ctx) ≠ "POST" →
  webhook L ctx
  = (trace (authenticate L ctx (optionsOf ctx))
     ++ [EvGetChildNodes; EvStatus 405; EvSend (Some "Method not allowed")],
     Returns NoWebhookResponse)
  ∧ http_status (trace (webhook L ctx)) = Some 405
  ∧ no_event is_payload_processing (trace (webhook L ctx)).
Proof.
  intros Hauth Hmode Hget Hpost.
  apply String.eqb_neq in Hget, Hpost.
  assert (Hrun : webhook L ctx
    = (trace (authenticate L ctx (optionsOf ctx))
       ++ [EvGetChildNodes; EvStatus 405; EvSend (Some "Method not allowed")],
       Returns NoWebhookResponse)).
  { rewrite (webhook_pass _ _ Hauth). unfold serveRequest.
    rewrite (bind_run _ _ _ Hmode), validateResponseModeConfiguration_trace, Hget, Hpost.
    reflexivity. }
  split; [exact Hrun |]. rewrite Hrun. simpl.
  apply authenticate_pass in Hauth as [_ Hlook].
  apply credential_lookups_only in Hlook as [Hpay Hquiet].
  split.
  - rewrite (http_status_app _ _ Hquiet). reflexivity.
  - apply no_event_app. split; [exact Hpay | repeat constructor].
Qed.

Lemma other_methods_answered_405_witness :
  method (request MoreExamples.put_request) ≠ "GET"
  ∧ http_status (trace (webhook Demo.libs MoreExamples.put_request)) = Some 405.
Proof.
  split; [vm_compute; discriminate |].
  apply (other_methods_answered_405 Demo.libs MoreExamples.put_request);
    vm_compute; first [reflexivity | discriminate].
Defined.

(** X8. A POST whose body is not JSON is not answered with 400: the
    parse error leaves the handler as an exception, before the schema
    parameter is read, and nothing is written on the response. *)
Theorem malformed_body_raises (L : Libs) (ctx : Context) :
  outcome (authenticate L ctx (optionsOf ctx)) = Returns None →
  outcome (validateResponseModeConfiguration ctx) = Returns tt →
  method (request ctx) = "POST" →
  JSON_parse L (body (request ctx)) = None →
  webhook L ctx
  = (trace (authenticate L ctx (optionsOf ctx))
     ++ [EvGetChildNodes; EvJsonParse (body (request ctx))],
     Throws (RuntimeError "SyntaxError: Unexpected token in JSON"))
  ∧ http_status (trace (webhook L ctx)) = None.
Proof.
  intros Hauth Hmode Hpost Hbody.
  assert (Hrun : webhook L ctx
    = (trace (authenticate L ctx (optionsOf ctx))
       ++ [EvGetChildNodes; EvJsonParse (body (request ctx))],
       Throws (RuntimeError "SyntaxError: Unexpected token in JSON"))).
  { rewrite (webhook_pass _ _ Hauth), (serveRequest_post _ _ _ Hmode Hpost).
    unfold handleSubmission, JSON_parse_m, bind, ret, throw, emit. simpl.
    rewrite Hbody. reflexivity. }
  split; [exact Hrun |]. rewrite Hrun. simpl.
  apply authenticate_pass in Hauth as [_ Hlook].
  apply credential_lookups_only in Hlook as [_ Hquiet].
  rewrite (http_status_app _ _ Hquiet). reflexivity.
Qed.

Lemma malformed_body_raises_witness :
  JSON_parse Demo.libs (body (request MoreExamples.garbled_submission)) = None
  ∧ http_status (trace (webhook Demo.libs MoreExamples.garbled_submission)) = None.
Proof.
  split; [vm_compute; reflexivity |].
  apply (malformed_body_raises Demo.libs MoreExamples.garbled_submission);
    vm_compute; reflexivity.
Defined.

(** X9. The data field is judged first: when the validator rejects it,
    the handler answers 400 with the message Data validation failed without
    looking at the event schema, so that an event schema that is not even
    JSON goes unnoticed. *)
Theorem data_rejected_before_event_schema (L : Libs) (ctx : Context)
        (payload schema schemaJson : JsVal) (validateData : JsVal → AjvResult) :
  outcome (authenticate L ctx (optionsOf ctx)) = Returns None →
  outcome (validateResponseModeConfiguration ctx) = Returns tt →
  method (request ctx) = "POST" →
  JSON_parse L (body (request ctx)) = Some payload →
  is_nullish payload = false →
  nodeParameters ctx !! "jsonSchema" = Some schema →
  JSON_parse L (to_str L schema) = Some schemaJson →
  ajv_compile L schemaJson = Some validateData →
  av_valid (validateData (get_opt payload "data")) = false →
  webhook L ctx
  = (trace (authenticate L ctx (optionsOf ctx))
     ++ [EvGetChildNodes;
         EvJsonParse (body (request ctx)); EvJsonParse (to_str L schema);
         EvAjvCompile schemaJson; EvAjvValidate (get_opt payload "data")]
     ++ validationFailure L "Data validation failed"
          (av_errors (validateData (get_opt payload "data"))),
     Returns NoWebhookResponse).
Proof.
  intros Hauth Hmode Hpost Hbody Hpayload Hschema Hparse Hcompile Hinvalid.
  rewrite (webhook_pass _ _ Hauth), (serveRequest_post _ _ _ Hmode Hpost).
  unfold handleSubmission, JSON_parse_m, ajv_compile_m, ajv_validate_m,
    getNodeParameter, bind, ret, throw, emit.
  simpl. rewrite Hbody. simpl. rewrite Hschema. simpl.
  rewrite Hparse. simpl. rewrite Hcompile. simpl.
  rewrite (get_prop_non_nullish _ "data" Hpayload). unfold ret. simpl.
  rewrite Hinvalid. reflexivity.
Qed.

Lemma data_rejected_before_event_schema_witness :
  JSON_parse Demo.libs "{not json" = None
  ∧ http_status (trace (webhook Demo.libs MoreExamples.incomplete_with_bad_event_schema))
    = Some 400.
Proof.
  split; [vm_compute; reflexivity |].
  rewrite (data_rejected_before_event_schema Demo.libs
             MoreExamples.incomplete_with_bad_event_schema
             (JObj [("data", JObj [("name", JStr "Jo")])])
             (JStr Demo.contact_schema_text) Demo.contact_schema
             (Demo.validate Demo.contact_schema));
    vm_compute; reflexivity.
Defined.

(** X10. A GET request that passes authentication and response-mode
    validation is answered 200 with the document [generateFormHtml]
    returns, and neither its body nor a schema is parsed; when page
    generation raises, the error leaves the handler and nothing is written
    on the response. *)
Theorem get_serves_generated_page (L : Libs) (ctx : Context) :
  outcome (authenticate L ctx (optionsOf ctx)) = Returns None →
  outcome (validateResponseModeConfiguration ctx) = Returns tt →
  method (request ctx) = "GET" →
  match outcome (generateFormHtml L ctx) with
  | Returns html =>
      outcome (webhook L ctx) = Returns NoWebhookResponse
      ∧ servedPage L ctx html
  | Throws e =>
      outcome (webhook L ctx) = Throws e
      ∧ http_status (trace (webhook L ctx)) = None
  end
  ∧ no_event is_payload_processing (trace (webhook L ctx)).
Proof.
  intros Hauth Hmode Hget.
  pose proof (quiet_generateFormHtml L ctx) as Hgen. unfold quiet in Hgen.
  assert (Hpay : no_event is_payload_processing (trace (generateFormHtml L ctx))).
  { unfold generateFormHtml, formPageLocals, renderFormHtml, slot_attribute, slot_option,
      stringify_escaped, getNodeParameter, getChildNodes, get_prop, bind, ret, throw, emit.
    repeat (case_match; simpl; simplify_eq; try (repeat constructor; fail)). }
  unfold servedPage.
  rewrite (webhook_pass _ _ Hauth). unfold serveRequest.
  rewrite (bind_run _ _ _ Hmode), validateResponseModeConfiguration_trace, Hget.
  change (String.eqb "GET" "GET") with true. cbv iota.
  apply authenticate_pass in Hauth as [_ Hlook].
  apply credential_lookups_only in Hlook as [Hauthpay Hquiet].
  destruct (outcome (generateFormHtml L ctx)) as [html|e] eqn:Hpage.
  - rewrite (bind_run _ _ _ Hpage). simpl.
    rewrite (http_status_app _ _ Hquiet), (http_body_app _ _ Hquiet). simpl.
    rewrite (http_status_app _ _ Hgen), (http_body_app _ _ Hgen). simpl.
    split; [repeat split; reflexivity |].
    apply no_event_app. split; [exact Hauthpay |].
    constructor; [reflexivity |]. apply no_event_app. split; [exact Hpay | repeat constructor].
  - rewrite (bind_throws _ _ _ Hpage). simpl.
    rewrite (http_status_app _ _ Hquiet). simpl.
    rewrite <- (app_nil_r (trace (generateFormHtml L ctx))) at 1.
    rewrite (http_status_app _ _ Hgen). simpl.
    split; [split; reflexivity |].
    apply no_event_app. split; [exact Hauthpay |].
    constructor; [reflexivity | exact Hpay].
Qed.

Lemma get_serves_generated_page_witness :
  method (request Examples.first_visit) = "GET"
  ∧ no_event is_payload_processing (trace (webhook Demo.libs Examples.first_visit)).
Proof.
  split; [reflexivity |].
  apply (get_serves_generated_page Demo.libs Examples.first_visit); vm_compute; reflexivity.
Defined.

Lemma settled_quiet (L : Libs) (m : M IWebhookResponseData) :
  quiet m → (∀ r, outcome m = Returns r → r ≠ NoWebhookResponse) → settled L m.
Proof.
  unfold settled, quiet. intros Hq Hr.
  destruct (outcome m) as [[|st wd]|e] eqn:Ho; try exact Hq.
  exfalso. exact (Hr _ eq_refl eq_refl).
Qed.

Lemma settled_bind {A} (L : Libs) (m : M A) (k : A → M IWebhookResponseData) :
  quiet m → (∀ a, settled L (k a)) → settled L (bind m k).
Proof.
  unfold settled, quiet. destruct m as [t [a|e]]; simpl; intros Hm Hk; [| exact Hm].
  specialize (Hk a). destruct (k a) as [t' [[|st wd]|e]]; simpl in *.
  - destruct Hk as (t1 & w & -> & Ht1 & Hw).
    exists (t ++ t1), w. split; [apply app_assoc |].
    split; [apply no_event_app; split; assumption | exact Hw].
  - apply no_event_app. split; assumption.
  - apply no_event_app. split; assumption.
Qed.

Lemma settled_answer (L : Libs) (w : list Event) :
  Answer L w → settled L (w, Returns NoWebhookResponse).
Proof.
  intros Hw. exists [], w. split; [reflexivity |]. split; [constructor | exact Hw].
Qed.

Lemma quiet_JSON_parse_m (L : Libs) (text : string) : quiet (JSON_parse_m L text).
Proof.
  unfold JSON_parse_m, quiet, bind, ret, throw, emit.
  destruct (JSON_parse L text); repeat constructor.
Qed.

Lemma quiet_ajv_compile_m (L : Libs) (schema : JsVal) : quiet (ajv_compile_m L schema).
Proof.
  unfold ajv_compile_m, quiet, bind, ret, throw, emit.
  destruct (ajv_compile L schema); repeat constructor.
Qed.

Lemma quiet_ajv_validate_m (validate : JsVal → AjvResult) (candidate : JsVal) :
  quiet (ajv_validate_m validate candidate).
Proof. repeat constructor. Qed.

Lemma settled_respondValidationFailed (L : Libs) (message : string) (errors : JsVal) :
  settled L (respondValidationFailed L message errors).
Proof. apply (settled_answer L (validationFailure L message errors)). constructor. Qed.

Lemma settled_emitSubmission (L : Libs) (ctx : Context) (options data event : JsVal) :
  settled L (emitSubmission L ctx options data event).
Proof.
  unfold emitSubmission. apply settled_bind; [apply quiet_get_prop |].
  intros v. apply settled_quiet; [apply quiet_ret |].
  intros r Hr. inversion Hr. discriminate.
Qed.

Lemma settled_handleSubmission (L : Libs) (ctx : Context) (options : JsVal) :
  settled L (handleSubmission L ctx options).
Proof.
  unfold handleSubmission.
  apply settled_bind; [apply quiet_JSON_parse_m | intros payload].
  apply settled_bind; [apply quiet_getNodeParameter | intros schema].
  apply settled_bind; [apply quiet_JSON_parse_m | intros schemaJson].
  apply settled_bind; [apply quiet_ajv_compile_m | intros validateData].
  apply settled_bind; [apply quiet_get_prop | intros submitted].
  apply settled_bind; [apply quiet_ajv_validate_m | intros dataResult].
  destruct (negb (av_valid dataResult)); [apply settled_respondValidationFailed |].
  apply settled_bind; [apply quiet_get_prop | intros eventJsonSchema].
  destruct (truthy eventJsonSchema).
  - apply settled_bind; [apply quiet_JSON_parse_m | intros eventSchemaJson].
    apply settled_bind; [apply quiet_ajv_compile_m | intros validateEvent].
    apply settled_bind; [apply quiet_get_prop | intros eventSubmitted].
    apply settled_bind; [apply quiet_ajv_validate_m | intros eventResult].
    destruct (negb (av_valid eventResult));
      [apply settled_respondValidationFailed | apply settled_emitSubmission].
  - apply settled_bind; [apply quiet_get_prop | intros event].
    apply settled_emitSubmission.
Qed.

Lemma quiet_validateResponseModeConfiguration (ctx : Context) :
  quiet (validateResponseModeConfiguration ctx).
Proof.
  unfold quiet. rewrite validateResponseModeConfiguration_trace. repeat constructor.
Qed.

Lemma settled_serveRequest (L : Libs) (ctx : Context) (options : JsVal) :
  settled L (serveRequest L ctx options).
Proof.
  unfold serveRequest.
  apply settled_bind; [apply quiet_validateResponseModeConfiguration | intros _].
  destruct (String.eqb (method (request ctx)) "GET").
  - apply settled_bind; [apply quiet_generateFormHtml | intros html].
    apply (settled_answer L [EvStatus 200; EvSend (Some html)]). constructor.
  - destruct (String.eqb (method (request ctx)) "POST").
    + apply settled_handleSubmission.
    + apply (settled_answer L [EvStatus 405; EvSend (Some "Method not allowed")]).
      constructor.
Qed.

Lemma settled_prefix (L : Libs) (t : list Event) (m : M IWebhookResponseData) :
  no_event is_response_write t → settled L m → settled L (t ++ trace m, outcome m).
Proof.
  unfold settled. simpl. intros Ht Hm.
  destruct (outcome m) as [[|st wd]|e]; try (apply no_event_app; split; assumption).
  destruct Hm as (t1 & w & -> & Ht1 & Hw).
  exists (t ++ t1), w. split; [apply app_assoc |].
  split; [apply no_event_app; split; assumption | exact Hw].
Qed.

(** X11. Every run of the handler ends in one of three ways. It answers
    the request itself, and then exactly one answer was written, last: the
    401 challenge, the page with status 200, a 400 validation failure or
    the 405 refusal. Or it hands the submission to the workflow, with
    status 200 and exactly one record, having written nothing on the
    response. Or it raises, having written nothing on the response. *)
Theorem handler_answers_at_most_once (L : Libs) (ctx : Context) :
  match outcome (webhook L ctx) with
  | Returns NoWebhookResponse =>
      ∃ t w, trace (webhook L ctx) = t ++ w
             ∧ no_event is_response_write t ∧ Answer L w
  | Returns (WebhookResponse st wd) =>
      st = 200 ∧ (∃ record, wd = [[record]])
      ∧ no_event is_response_write (trace (webhook L ctx))
  | Throws _ => no_event is_response_write (trace (webhook L ctx))
  end.
Proof.
  assert (Hsettled : settled L (webhook L ctx)).
  { rewrite webhook_unfold.
    destruct (outcome (authenticate L ctx (optionsOf ctx))) as [[r|]|e] eqn:Hauth.
    - rewrite (bind_run _ _ _ Hauth). simpl. rewrite app_nil_r.
      apply authenticate_answered in Hauth as (-> & t & -> & Hlook).
      apply credential_lookups_only in Hlook as [_ Hquiet].
      exists t, challenge. split; [reflexivity |]. split; [exact Hquiet | constructor].
    - rewrite (bind_run _ _ _ Hauth).
      apply authenticate_pass in Hauth as [_ Hlook].
      apply credential_lookups_only in Hlook as [_ Hquiet].
      apply settled_prefix; [exact Hquiet | apply settled_serveRequest].
    - rewrite (bind_throws _ _ _ Hauth). unfold settled. simpl.
      exact (authenticate_throws _ _ _ _ Hauth). }
  unfold settled in Hsettled.
  destruct (outcome (webhook L ctx)) as [[|st wd]|e] eqn:Hrun; try exact Hsettled.
  apply webhook_success_record in Hrun as (data & event & -> & ->).
  split; [reflexivity |]. split; [eexists; reflexivity | exact Hsettled].
Qed.

(** ** Further properties of the form page *)





Lemma append_cons (c : ascii) (s t : string) : String c s +:+ t = String c (s +:+ t).
Proof. reflexivity. Qed.

Lemma starts_with_slash (c : ascii) (s : string) :
  starts_with "/" (String c s) = Ascii.eqb c "/".
Proof. cbn [starts_with]. rewrite andb_true_r. apply Ascii.eqb_sym. Qed.

Lemma contains_close_cons (c : ascii) (s : string) :
  contains "</" (String c s) = Ascii.eqb c "<" && starts_with "/" s || contains "</" s.
Proof.
  cbn [contains starts_with]. rewrite (Ascii.eqb_sym "<" c).
  destruct s; reflexivity.
Qed.

Lemma escape_slashes_head (x t : string) :
  starts_with "/" t = false → starts_with "/" (escape_slashes x +:+ t) = false.
Proof.
  intros Ht. destruct x as [|c x]; [exact Ht |].
  cbn [escape_slashes]. destruct (Ascii.eqb c "/") eqn:Hc.
  - reflexivity.
  - rewrite append_cons, starts_with_slash. exact Hc.
Qed.

Lemma escape_slashes_no_close (x t : string) :
  starts_with "/" t = false →
  contains "</" (escape_slashes x +:+ t) = contains "</" t.
Proof.
  intros Ht. induction x as [|c x IH]; [reflexivity |].
  cbn [escape_slashes]. destruct (Ascii.eqb c "/") eqn:Hc.
  - rewrite !append_cons, !contains_close_cons, IH. reflexivity.
  - rewrite append_cons, contains_close_cons, IH.
    rewrite (escape_slashes_head x t Ht), andb_false_r. reflexivity.
Qed.

Lemma contains_close_after (p s : string) :
  has_char "<" p = false → contains "</" (p +:+ s) = contains "</" s.
Proof.
  induction p as [|c p IH]; [reflexivity |].
  cbn [has_char]. intros H. apply orb_false_iff in H as [Hc Hp].
  rewrite append_cons, contains_close_cons, Hc. exact (IH Hp).
Qed.

(** X13. No attribute statement written into the script of the page
    holds the two characters that open a closing tag: every slash of a
    serialized value has a backslash in front, so that no parameter value
    can end the script element. *)
Theorem attribute_slots_never_close_script (L : Libs) (attr : string) :
  has_char "<" attr = false →
  (∀ v text, outcome (slot_attribute L attr v) = Returns text →
             contains "</" text = false)
  ∧ (∀ guard v text, outcome (slot_option L attr guard v) = Returns text →
                     contains "</" text = false).
Proof.
  intros Hattr. split.
  - intros v text. unfold slot_attribute, stringify_escaped.
    destruct (negb (is_nullish v)); [| simpl; intros [= <-]; reflexivity].
    destruct (is_undefined v); [discriminate |].
    rewrite bind_ret_l. simpl. intros [= <-].
    rewrite (contains_close_after "form.setAttribute(") by reflexivity.
    rewrite (contains_close_after dq) by reflexivity.
    rewrite (contains_close_after attr) by exact Hattr.
    rewrite (contains_close_after dq) by reflexivity.
    rewrite (contains_close_after ",") by reflexivity.
    rewrite escape_slashes_no_close by reflexivity. reflexivity.
  - intros guard v text. unfold slot_option, stringify_escaped.
    destruct (truthy guard); [| simpl; intros [= <-]; reflexivity].
    destruct (is_undefined v); [discriminate |].
    rewrite bind_ret_l. simpl. intros [= <-].
    rewrite (contains_close_after "form.setAttribute('") by reflexivity.
    rewrite (contains_close_after attr) by exact Hattr.
    rewrite (contains_close_after "', ") by reflexivity.
    rewrite escape_slashes_no_close by reflexivity. reflexivity.
Qed.

Lemma attribute_slots_never_close_script_witness :
  has_char "<" "schema" = false
  ∧ ∀ text,
      outcome (slot_attribute Demo.libs "schema" (JStr "</script><script>alert(1)"))
      = Returns text →
      contains "</" text = false.
Proof.
  split; [reflexivity |]. intros text.
  apply (attribute_slots_never_close_script Demo.libs "schema"). reflexivity.
Defined.

(** X14. With no wait-for-form condition downstream, the page follows the
    configuration: it holds the redirect link exactly when a redirect URL is
    configured, with that URL, and its useResponseData input holds true
    exactly when the responseMode parameter is responseNode (false when the
    parameter is not set). *)
Theorem page_follows_configuration (L : Libs) (ctx : Context) (html : string) :
  ¬ waitsForForm L ctx →
  outcome (generateFormHtml L ctx) = Returns html →
  ∃ p rest,
    html = tpl_head +:+ slot_customCss L p
           +:+ tpl_body_open +:+ slot_submittedText L p
           +:+ tpl_card_close +:+ slot_redirectUrl L p
           +:+ tpl_use_response_data +:+ slot_useResponseData p
           +:+ tpl_script +:+ rest
    ∧ (∀ url, redirectConfigured (optionsOf ctx) url →
              slot_redirectUrl L p = redirectLink (to_str L url))
    ∧ ((∀ url, ¬ redirectConfigured (optionsOf ctx) url) → slot_redirectUrl L p = "")
    ∧ (nodeParameters ctx !! "responseMode" = Some (JStr "responseNode") →
       slot_useResponseData p = "true")
    ∧ (nodeParameters ctx !! "responseMode" ≠ Some (JStr "responseNode") →
       slot_useResponseData p = "false").
Proof.
  intros Hwait Hrun.
  assert (Hnone : isFormConnected L (childNodes ctx) = false).
  { destruct (isFormConnected L (childNodes ctx)) eqn:E; [| reflexivity].
    exfalso. apply Hwait, isFormConnected_spec. exact E. }
  apply generateFormHtml_layout in Hrun as (p & rest & Hlocals & ->).
  exists p, rest. split; [reflexivity |].
  apply formPageLocals_inv in Hlocals as (_ & Hurl & Hmode & Huse). cbv zeta in *.
  rewrite Hnone in *. unfold slot_redirectUrl, slot_useResponseData.
  rewrite Huse, Hmode, Hurl. clear Huse Hmode Hurl.
  split; [| split; [| split]].
  - intros url (Hrwo & Hwith & <- & Htruthy).
    rewrite Hrwo, Hwith.
    change (is_str (JStr "redirect") "redirect") with true. cbv iota.
    rewrite Htruthy. reflexivity.
  - intros Hno.
    destruct (truthy (get_opt (optionsOf ctx) "respondWithOptions")) eqn:Hrwo;
      [| reflexivity].
    destruct (is_str _ "redirect") eqn:Hwith; [| reflexivity].
    destruct (truthy (get_opt _ "redirectUrl")) eqn:Htruthy; [| reflexivity].
    exfalso. apply is_str_true in Hwith.
    exact (Hno _ (conj Hrwo (conj Hwith (conj eq_refl Htruthy)))).
  - intros Hset. unfold parameterOr. rewrite Hset. reflexivity.
  - intros Hother. unfold parameterOr.
    destruct (nodeParameters ctx !! "responseMode") as [v|] eqn:Hv; simpl;
      [| reflexivity].
    destruct (is_str v "responseNode") eqn:Hstr; [| reflexivity].
    apply is_str_true in Hstr. congruence.
Qed.

Lemma page_follows_configuration_witness :
  ¬ waitsForForm Demo.libs Examples.redirecting_form
  ∧ ∃ html p,
      outcome (generateFormHtml Demo.libs Examples.redirecting_form) = Returns html
      ∧ slot_redirectUrl Demo.libs p = redirectLink "https://example.com/thanks".
Proof.
  assert (Hwait : ¬ waitsForForm Demo.libs Examples.redirecting_form).
  { intros (n & Hin & _). destruct Hin. }
  split; [exact Hwait |].
  assert (Hrun : ∃ html, outcome (generateFormHtml Demo.libs Examples.redirecting_form)
                         = Returns html) by (eexists; vm_compute; reflexivity).
  destruct Hrun as [html Hrun].
  destruct (page_follows_configuration _ _ _ Hwait Hrun) as (p & rest & _ & Hlink & _).
  exists html, p. split; [exact Hrun |].
  rewrite (Hlink (JStr "https://example.com/thanks")); [reflexivity |].
  repeat split; vm_compute; reflexivity.
Defined.

(** X15. A form-submitted text that is configured empty removes the
    message paragraph from the page: the default text is not put in its
    place. *)
Theorem empty_text_removes_paragraph (L : Libs) (ctx : Context) (html : string) :
  outcome (generateFormHtml L ctx) = Returns html →
  CustomTextSelected (optionsOf ctx) (JStr "") →
  ∃ p rest,
    html = tpl_head +:+ slot_customCss L p
           +:+ tpl_body_open +:+ slot_submittedText L p +:+ rest
    ∧ slot_submittedText L p = "".
Proof.
  intros Hrun Hsel.
  apply generateFormHtml_layout in Hrun as (p & rest & Hlocals & ->).
  exists p. eexists. split; [reflexivity |].
  apply formPageLocals_inv in Hlocals as (Htext & _). cbv zeta in Htext.
  unfold slot_submittedText. rewrite Htext.
  destruct Hsel as [Hrwo Hwith Hval _ | Hrwo Hval _];
    rewrite Hrwo; [rewrite Hwith; simpl |]; rewrite Hval; reflexivity.
Qed.

Lemma empty_text_removes_paragraph_witness :
  CustomTextSelected (optionsOf MoreExamples.silent_form) (JStr "")
  ∧ ∃ html,
      outcome (generateFormHtml Demo.libs MoreExamples.silent_form) = Returns html
      ∧ contains "submitted-content'>" html = false.
Proof.
  assert (Hsel : CustomTextSelected (optionsOf MoreExamples.silent_form) (JStr "")).
  { apply text_of_response_options; vm_compute; first [reflexivity | discriminate]. }
  split; [exact Hsel |].
  assert (Hrun : ∃ html, outcome (generateFormHtml Demo.libs MoreExamples.silent_form)
                         = Returns html) by (eexists; vm_compute; reflexivity).
  destruct Hrun as [html Hrun].
  destruct (empty_text_removes_paragraph _ _ _ Hrun Hsel) as (p & rest & _ & _).
  exists html. split; [exact Hrun |].
  revert Hrun. vm_compute. intros [= <-]. reflexivity.
Defined.






Lemma split_go_end (cur : string) : split_go "-----" 0 cur "" = [cur].
Proof. reflexivity. Qed.





Lemma contains_nonempty (lit s : string) :
  contains lit s = true → lit ≠ "" → s ≠ "".
Proof. intros H Hlit ->. destruct lit; [congruence | discriminate]. Qed.







